(** * StudyQuest backend: the route handlers of [app/routers] as state
  transformers, and the properties of the boss-battle session, the
  text-reflection mentor and the dashboard that the specification states.

  Layout:
  - [Py]: the Python values and built-ins the handlers rely on
    (truthiness, [int()], slices, indexing, parsed JSON);
  - [User], [BossBattle], [TextAIReflection], [Progress]: the rows of
    [app.models];
  - the world: the relational store and the [_ACTIVE_SESSIONS] dictionary;
  - [Boss], [TextAI], [Home]: one module per router, definitions first,
    theorems after. *)

From Stdlib Require Import ZArith Ascii String List QArith_base Lia.
From stdpp Require Import base option list sorting strings gmap.

Set Warnings "-register-all".
Local Open Scope string_scope.
Local Open Scope list_scope.
Local Open Scope Z_scope.

(** ** Python values and built-ins *)

(** What a handler hands back to the framework: a response body, an
  [HTTPException] with its status code and detail, or an exception nobody
  catches (the framework answers 500). The world that comes with it is the
  world at the moment the handler stopped: in-memory mutations done before a
  [raise] stay. *)
Inductive exn := IndexError | TypeError | AttributeError.

Inductive outcome (A : Type) :=
| Ok (a : A)
| HttpError (status_code : Z) (detail : string)
| Crash (e : exn).
Arguments Ok {A} a.
Arguments HttpError {A} status_code detail.
Arguments Crash {A} e.

Definition status_of {A} (o : outcome A) : Z :=
match o with
| Ok _ => 200
| HttpError c _ => c
| Crash _ => 500
end.

(** Python's [int(str)] is a built-in of the interpreter (base-10 literals,
  surrounding blanks, a sign, underscores, any Unicode decimal digit); the
  handlers only depend on whether it yields an integer or raises
  [ValueError], so it is an interface of the development. *)
Class PyIntParser := int_of_str : string → option Z.

Module Py.

(** A float as [json.loads] delivers it: a finite value (every finite
    double is a rational), an infinity or a NaN. *)
Inductive pyfloat :=
| FFinite (q : Q)
| FInf (negative : bool)
| FNaN.

(** A parsed JSON document. The fields of an object are its items in
    order; [get] returns the first item stored under the key. *)
Inductive json :=
| JNull
| JBool (b : bool)
| JInt (z : Z)
| JFloat (f : pyfloat)
| JStr (s : string)
| JList (l : list json)
| JObj (fields : list (string * json)).

(** [bool(v)] *)
Definition truthy (v : json) : bool :=
  match v with
  | JNull => false
  | JBool b => b
  | JInt z => negb (z =? 0)
  | JFloat (FFinite q) => negb (Qnum q =? 0)
  | JFloat _ => true
  | JStr s => negb (String.eqb s "")
  | JList l => match l with [] => false | _ => true end
  | JObj f => match f with [] => false | _ => true end
  end.

(** [d.get(k)] on the items of a dict. *)
Fixpoint get (k : string) (fields : list (string * json)) : option json :=
  match fields with
  | [] => None
  | (k', v) :: rest => if String.eqb k' k then Some v else get k rest
  end.

(** [d.get(k)] where a missing key reads as [None]. *)
Definition get_or_null (k : string) (fields : list (string * json)) : json :=
  match get k fields with Some v => v | None => JNull end.

(** The result of [int(v)]. *)
Inductive int_result :=
| IntOk (z : Z)
| IntValueError
| IntTypeError
| IntOverflowError.

Definition int `{PyIntParser} (v : json) : int_result :=
  match v with
  | JNull => IntTypeError
  | JBool b => IntOk (if b then 1 else 0)
  | JInt z => IntOk z
  | JFloat (FFinite q) => IntOk (Z.quot (Qnum q) (Z.pos (Qden q)))
  | JFloat (FInf _) => IntOverflowError
  | JFloat FNaN => IntValueError
  | JStr s => match int_of_str s with Some z => IntOk z | None => IntValueError end
  | JList _ | JObj _ => IntTypeError
  end.

(** [l[:n]] *)
Definition slice_to {A} (n : Z) (l : list A) : list A :=
  if n <? 0 then take (length l - Z.to_nat (- n))%nat l else take (Z.to_nat n) l.

(** [l[i]]; [None] stands for [IndexError]. *)
Definition index {A} (l : list A) (i : Z) : option A :=
  if 0 <=? i then l !! Z.to_nat i
  else if - Z.of_nat (length l) <=? i then l !! Z.to_nat (Z.of_nat (length l) + i)
  else None.

(** [x or y] on values that may be [None]; the empty string is falsy. *)
Definition str_truthy (o : option string) : bool :=
  match o with Some s => negb (String.eqb s "") | None => false end.

Definition str_or (x y : option string) : option string :=
  if str_truthy x then x else y.

(** [x or d] on an optional integer: [None] and [0] are falsy. *)
Definition int_or (x : option Z) (d : Z) : Z :=
  match x with
  | Some z => if z =? 0 then d else z
  | None => d
  end.

(** [s[:n] + "..." if len(s) > n else s] *)
Definition ellipsis (n : nat) (s : string) : string :=
  if (n <? String.length s)%nat then String.append (String.substring 0 n s) "..." else s.

End Py.

(** ** The rows of [app.models] *)

Module User.
(** Modelled from the spec: the [User] table of [app.models] (username,
    email, total_xp). [total_xp] may be NULL, which the routers read as
    [None] ([user_obj.total_xp or 0]). *)
Record t := mk { username : string; email : option string; total_xp : option Z }.

Definition add_xp (xp : Z) (u : t) : t :=
  {| username := username u; email := email u;
     total_xp := Some (Py.int_or (total_xp u) 0 + xp) |}.
End User.

Module BossBattle.
(** Modelled from the spec: the [BossBattle] table of [app.models], with
    the fields [BossBattleBase] of [app/schemas.py] lists. *)
Record t := mk {
  user : string;
  date : Z;
  score : Z;
  total_questions : Z;
  xp_reward : Z;
  difficulty : string;
  completed : bool }.
End BossBattle.

(** Timestamps are counted in microseconds, the resolution of [datetime]. *)
Inductive datev :=
| DTime (t : Z)        (* a [datetime] *)
| DRaw (s : string).   (* the text a raw JSON body carried under "date" *)

Module TextAIReflection.
(** Modelled from the spec: the [TextAIReflection] table of [app.models]
    (text, AI feedback, summary, xp_reward). Feedback and summary hold
    whatever the mentor returned, a string in every ordinary case. *)
Record t := mk {
  user : string;
  date : datev;
  reflection_text : string;
  ai_feedback : Py.json;
  summary : Py.json;
  xp_reward : Z }.
End TextAIReflection.

Module Progress.
(** Modelled from the spec: the [Progress] table of [app.models] (study
    session: duration, reflection, xp_gained). [date] is the timestamp in
    microseconds. *)
Record t := mk {
  user : string;
  date : Z;
  duration_minutes : option Z;
  reflection : option string;
  xp_gained : Z }.
End Progress.

(** ** The world the handlers run in

    The handlers are modelled from the point where the framework calls them,
    with arguments that passed its validation, to the point where they
    return or raise; the store takes the rows it is given and a commit does
    not fail. *)

Module Question.
(** One entry of a quiz: the dicts of [_QUESTIONS] and of the cleaned AI
    reply. *)
Record t := mk { question : Py.json; choices : list Py.json; answer_idx : Z }.
End Question.

Module Sess.
(** The dict stored in [_ACTIVE_SESSIONS] under a username. *)
Record t := mk {
  difficulty : string;
  started_at : Z;
  time_limit_seconds : Z;
  lives : Z;
  score : Z;
  index : Z;
  total_questions : Z;
  questions : list Question.t }.

Definition set_score (v : Z) (s : t) : t :=
  mk (difficulty s) (started_at s) (time_limit_seconds s) (lives s) v (index s)
     (total_questions s) (questions s).
Definition set_lives (v : Z) (s : t) : t :=
  mk (difficulty s) (started_at s) (time_limit_seconds s) v (score s) (index s)
     (total_questions s) (questions s).
Definition set_index (v : Z) (s : t) : t :=
  mk (difficulty s) (started_at s) (time_limit_seconds s) (lives s) (score s) v
     (total_questions s) (questions s).
End Sess.

Record Db := mkDb {
users : list User.t;
boss_battles : list BossBattle.t;
reflections : list TextAIReflection.t;
progress : list Progress.t }.

Record World := mkWorld {
db : Db;
_ACTIVE_SESSIONS : gmap string Sess.t }.

(** [select(User).where(User.username == name)).first()] *)
Definition find_user (name : string) (d : Db) : option User.t :=
find (fun u => String.eqb (User.username u) name) (users d).

(** Write a changed row back: the first row the query matched. *)
Fixpoint update_first {A} (p : A → bool) (f : A → A) (l : list A) : list A :=
match l with
| [] => []
| x :: rest => if p x then f x :: rest else x :: update_first p f rest
end.

(** What the third-party chat-completion call did. [CallRaises] covers every
  exception between the request and [json.loads], a reply that is no JSON
  included. *)
Inductive ai_outcome :=
| Unconfigured                  (* no client: package or key missing *)
| CallRaises
| Reply (data : Py.json).

(** ** [app/routers/bossbattle.py] *)

Module StartRequest.
Record t := mk {
  user : string;
  difficulty : option string;
  total_questions : option Z;
  time_limit_seconds : option Z }.
End StartRequest.

Module AnswerRequest.
Record t := mk { user : string; choice_idx : Z }.
End AnswerRequest.

Module AnswerCall.
(** Everything [submit_answer] can draw on: the validated JSON payload when
    there was one, otherwise the fields [request.json()] or [request.form()]
    yielded (text values, as a form delivers them) and the query parameters
    [user] and [choice_idx]. *)
Record t := mk {
  payload : option AnswerRequest.t;
  body : gmap string string;
  user : option string;
  choice_idx : option Z }.
End AnswerCall.

Module Boss.

Import Py.

Definition _QUESTIONS : list Question.t :=
  [ Question.mk (JStr "What is the time complexity of binary search?")
      [JStr "O(n)"; JStr "O(log n)"; JStr "O(n log n)"; JStr "O(1)"] 1;
    Question.mk (JStr "Which HTTP method is idempotent?")
      [JStr "POST"; JStr "PUT"; JStr "PATCH"; JStr "CONNECT"] 1;
    Question.mk (JStr "What does SQL stand for?")
      [JStr "Simple Query Language"; JStr "Structured Query Language";
       JStr "Sequential Query Language"; JStr "System Query Language"] 1;
    Question.mk (JStr "Which data structure uses FIFO order?")
      [JStr "Stack"; JStr "Queue"; JStr "Tree"; JStr "Heap"] 1;
    Question.mk (JStr "Which status code means 'Not Found'?")
      [JStr "200"; JStr "301"; JStr "404"; JStr "500"] 2 ].

(** The bodies the routes return. *)
Inductive response :=
| SessionClosed
| Ended (status : string) (score xp_reward total_questions lives_remaining : Z)
| Started (user : string) (timer_seconds lives number total : Z)
    (question : json) (choices : list json)
| CurrentQuestion (question : json) (choices : list json)
    (number total lives timer_remaining score : Z)
| Answered (correct : bool) (feedback : string) (lives score timer_remaining : Z)
    (number total : Z) (question : json) (choices : list json)
| Status (lives score question_number total_questions timer_remaining : Z).

Section WithParser.
Context `{PyIntParser}.

(** The validation step of the loop in [_generate_ai_questions]: the entry
    that is appended for a dict [q] that passes, [None] otherwise. *)
Definition clean_entry (fields : list (string * json)) : option Question.t :=
  let question := get_or_null "question" fields in
  match get_or_null "choices" fields with
  | JList choices =>
      if truthy question && (2 <=? Z.of_nat (length choices))
      then Some (Question.mk question (slice_to 4 choices)
                   (match Py.int (get_or_null "answer_idx" fields) with
                    | IntOk z => z
                    | _ => 0
                    end))
      else None
  | _ => None
  end.

(** The [for q in questions] loop with its [continue] and [break]. *)
Fixpoint clean_loop (total : Z) (qs : list json) (cleaned : list Question.t)
  : list Question.t :=
  match qs with
  | [] => cleaned
  | JObj fields :: rest =>
      let cleaned' :=
        match clean_entry fields with
        | Some c => cleaned ++ [c]
        | None => cleaned
        end in
      if Z.of_nat (length cleaned') >=? total then cleaned'
      else clean_loop total rest cleaned'
  | _ :: rest => clean_loop total rest cleaned
  end.

(** A [questions] value that is no list either cannot be iterated
    ([TypeError], caught by the handler's [except]) or yields strings (the
    characters of a string, the keys of a dict), none of which is a dict:
    both ways nothing is cleaned and the static bank is served. *)
Definition _generate_ai_questions (total : Z) (ai : ai_outcome) : list Question.t :=
  match ai with
  | Unconfigured => slice_to total _QUESTIONS
  | CallRaises => slice_to total _QUESTIONS
  | Reply data =>
      let questions :=
        match data with
        | JObj fields =>
            match get "questions" fields with Some v => v | None => JList [] end
        | _ => JList []
        end in
      match questions with
      | JList qs =>
          match clean_loop total qs [] with
          | [] => slice_to total _QUESTIONS
          | cleaned => slice_to total cleaned
          end
      | _ => slice_to total _QUESTIONS
      end
  end.

End WithParser.

Definition _ensure_user_exists (username : string) (w : World) : outcome unit :=
  match find_user username (db w) with
  | Some _ => Ok tt
  | None => HttpError 404 "User not found. Please register first."
  end.

Definition _get_session (user : string) (w : World) : outcome Sess.t :=
  match _ACTIVE_SESSIONS w !! user with
  | Some sess => Ok sess
  | None => HttpError 404 "No active boss battle. Start one first."
  end.

(** [elapsed] is a number of seconds with a fractional part and [int]
    truncates towards zero; on microsecond timestamps that is the quotient
    below. (The source computes it in double precision, which is exact for
    the spans a session lives.) *)
Definition _time_remaining (now : Z) (sess : Sess.t) : Z :=
  let elapsed := now - Sess.started_at sess in
  Z.max 0 (Z.quot (Sess.time_limit_seconds sess * 1000000 - elapsed) 1000000).

Definition _end_session (user status : string) (now : Z) (w : World)
  : response * World :=
  match _ACTIVE_SESSIONS w !! user with
  | None => (SessionClosed, w)
  | Some sess =>
      let xp_reward := Sess.score sess * 20 in
      let is_user := fun u => String.eqb (User.username u) user in
      let users' :=
        match find_user user (db w) with
        | Some _ => update_first is_user (User.add_xp xp_reward) (users (db w))
        | None => users (db w)
        end in
      let record :=
        BossBattle.mk user now (Sess.score sess) (Sess.total_questions sess)
          xp_reward (Sess.difficulty sess) true in
      let db' :=
        mkDb users' (boss_battles (db w) ++ [record]) (reflections (db w))
          (progress (db w)) in
      (Ended status (Sess.score sess) xp_reward (Sess.total_questions sess)
         (Sess.lives sess),
       mkWorld db' (delete user (_ACTIVE_SESSIONS w)))
  end.

Definition ended (user status : string) (now : Z) (w : World)
  : outcome response * World :=
  let '(r, w') := _end_session user status now w in (Ok r, w').

Definition str_or_default (x : option string) (d : string) : string :=
  match x with
  | Some s => if String.eqb s "" then d else s
  | None => d
  end.

Section WithParser.
Context `{PyIntParser}.

Definition start_boss_battle (payload : StartRequest.t) (ai : ai_outcome)
    (now : Z) (w : World) : outcome response * World :=
  let user := StartRequest.user payload in
  match _ensure_user_exists user w with
  | HttpError c d => (HttpError c d, w)
  | Crash e => (Crash e, w)
  | Ok _ =>
  match StartRequest.total_questions payload with
  | None => (Crash TypeError, w)           (* [None < 1] *)
  | Some requested =>
  if requested <? 1 then (HttpError 400 "total_questions must be >= 1", w) else
  if bool_decide (is_Some (_ACTIVE_SESSIONS w !! user))
  then (HttpError 409 "An active boss battle already exists.", w) else
  let bank := Z.of_nat (length _QUESTIONS) in
  let total := if negb (requested =? 0) then Z.min requested bank else bank in
  let questions := _generate_ai_questions total ai in
  let timer := int_or (StartRequest.time_limit_seconds payload) 180 in
  let sess :=
    Sess.mk (str_or_default (StartRequest.difficulty payload) "medium") now
      timer 3 0 0 total questions in
  let w' := mkWorld (db w) (<[user := sess]> (_ACTIVE_SESSIONS w)) in
  match Py.index questions 0 with
  | None => (Crash IndexError, w')
  | Some q =>
      (Ok (Started user timer 3 1 total (Question.question q) (Question.choices q)),
       w')
  end
  end
  end.

End WithParser.

(** [now] is the clock at the timeout check, [later] a reading taken
    afterwards in the same request. *)
Definition get_current_question (user : string) (now later : Z) (w : World)
  : outcome response * World :=
  match _get_session user w with
  | HttpError c d => (HttpError c d, w)
  | Crash e => (Crash e, w)
  | Ok sess =>
  if _time_remaining now sess =? 0 then ended user "timeout" later w else
  if Sess.lives sess <=? 0 then ended user "out_of_lives" later w else
  let idx := Sess.index sess in
  if idx >=? Sess.total_questions sess then ended user "completed" later w else
  match Py.index (Sess.questions sess) idx with
  | None => (Crash IndexError, w)
  | Some q =>
      (Ok (CurrentQuestion (Question.question q) (Question.choices q) (idx + 1)
             (Sess.total_questions sess) (Sess.lives sess)
             (_time_remaining later sess) (Sess.score sess)),
       w)
  end
  end.

Section WithParser.
Context `{PyIntParser}.

(** [payload.user], or [body.get("user") or body.get("username") or user]. *)
Definition resolve_username (c : AnswerCall.t) : option string :=
  match AnswerCall.payload c with
  | Some p => Some (AnswerRequest.user p)
  | None =>
      str_or (AnswerCall.body c !! "user")
        (str_or (AnswerCall.body c !! "username") (AnswerCall.user c))
  end.

(** [payload.choice_idx], or the first truthy one of the three body fields
    passed through [int] (any exception gives [None]), or the query
    parameter as it is. *)
Definition resolve_choice (c : AnswerCall.t) : option Z :=
  match AnswerCall.payload c with
  | Some p => Some (AnswerRequest.choice_idx p)
  | None =>
      let raw :=
        str_or (AnswerCall.body c !! "choice_idx")
          (str_or (AnswerCall.body c !! "choiceIdx") (AnswerCall.body c !! "choice")) in
      match raw with
      | Some s => if String.eqb s "" then AnswerCall.choice_idx c else int_of_str s
      | None => AnswerCall.choice_idx c
      end
  end.

(** The in-place update of the session dict by one answer:
    [sess["score"] += 1] or [sess["lives"] -= 1], then [sess["index"] += 1]. *)
Definition record_answer (is_correct : bool) (sess : Sess.t) : Sess.t :=
  let sess1 :=
    if is_correct then Sess.set_score (Sess.score sess + 1) sess
    else Sess.set_lives (Sess.lives sess - 1) sess in
  Sess.set_index (Sess.index sess1 + 1) sess1.

Definition submit_answer (c : AnswerCall.t) (now later : Z) (w : World)
  : outcome response * World :=
  let username := resolve_username c in
  let choice := resolve_choice c in
  match (if str_truthy username then username else None) with
  | None => (HttpError 400 "user is required.", w)
  | Some username =>
  match choice with
  | None => (HttpError 400 "choice_idx is required.", w)
  | Some choice =>
  match _get_session username w with
  | HttpError c d => (HttpError c d, w)
  | Crash e => (Crash e, w)
  | Ok sess =>
  if _time_remaining now sess =? 0 then ended username "timeout" later w else
  let idx := Sess.index sess in
  if idx >=? Sess.total_questions sess then ended username "completed" later w else
  match Py.index (Sess.questions sess) idx with
  | None => (Crash IndexError, w)
  | Some q =>
  let correct_idx := Question.answer_idx q in
  let is_correct := choice =? correct_idx in
  let feedback := if is_correct then "Correct! +20 XP" else "Wrong! -1 life" in
  let sess' := record_answer is_correct sess in
  let w' := mkWorld (db w) (<[username := sess']> (_ACTIVE_SESSIONS w)) in
  if Sess.lives sess' <=? 0 then ended username "out_of_lives" later w' else
  if Sess.index sess' >=? Sess.total_questions sess'
  then ended username "completed" later w' else
  match Py.index (Sess.questions sess') (Sess.index sess') with
  | None => (Crash IndexError, w')
  | Some next_q =>
      (Ok (Answered is_correct feedback (Sess.lives sess') (Sess.score sess')
             (_time_remaining later sess') (Sess.index sess' + 1)
             (Sess.total_questions sess') (Question.question next_q)
             (Question.choices next_q)),
       w')
  end
  end
  end
  end
  end.

End WithParser.

Definition get_status (user : string) (now later : Z) (w : World)
  : outcome response * World :=
  match _get_session user w with
  | HttpError c d => (HttpError c d, w)
  | Crash e => (Crash e, w)
  | Ok sess =>
  let remaining := _time_remaining now sess in
  if remaining =? 0 then ended user "timeout" later w else
  (Ok (Status (Sess.lives sess) (Sess.score sess)
         (Z.min (Sess.index sess + 1) (Sess.total_questions sess))
         (Sess.total_questions sess) remaining),
   w)
  end.

Definition forfeit (user : string) (now : Z) (w : World)
  : outcome response * World :=
  match _get_session user w with
  | HttpError c d => (HttpError c d, w)
  | Crash e => (Crash e, w)
  | Ok _ => ended user "forfeit" now w
  end.

(** The body and world [_end_session] produces for a session that is there. *)
Definition closing (user status : string) (now : Z) (w : World) (sess : Sess.t)
  : outcome response * World :=
  (Ok (Ended status (Sess.score sess) (20 * Sess.score sess)
         (Sess.total_questions sess) (Sess.lives sess)),
   (_end_session user status now w).2).


Section WithParser.
Context `{PyIntParser}.

(** A request that names a player and carries a choice. *)
Definition names (c : AnswerCall.t) (user : string) (choice : Z) : Prop :=
  resolve_username c = Some user ∧ user ≠ "" ∧ resolve_choice c = Some choice.

End WithParser.


(** The bounds a stored session is expected to keep. *)
Definition session_ok (s : Sess.t) : Prop :=
  1 ≤ Sess.lives s ≤ 3
  ∧ 0 ≤ Sess.score s ≤ Sess.index s
  ∧ Sess.index s < Sess.total_questions s
  ∧ Sess.total_questions s ≤ 5.

Definition sessions_ok (w : World) : Prop :=
  ∀ user s, _ACTIVE_SESSIONS w !! user = Some s → session_ok s.

(** A request to one of the routes under [/boss], with what the outside
    world contributes to it (the clock readings, the chat-completion call). *)
Inductive call :=
| Start (payload : StartRequest.t) (ai : ai_outcome) (now : Z)
| GetQuestion (user : string) (now later : Z)
| Answer (c : AnswerCall.t) (now later : Z)
| GetStatus (user : string) (now later : Z)
| Forfeit (user : string) (now : Z).

Section WithParser.
Context `{PyIntParser}.

Definition handle (r : call) (w : World) : outcome response * World :=
  match r with
  | Start payload ai now => start_boss_battle payload ai now w
  | GetQuestion user now later => get_current_question user now later w
  | Answer c now later => submit_answer c now later w
  | GetStatus user now later => get_status user now later w
  | Forfeit user now => forfeit user now w
  end.

(** The worlds the service can be in: the process boots with an empty
    [_ACTIVE_SESSIONS] over any store, serves requests under [/boss], and in
    between the other routers change the store only. *)
Inductive reachable : World → Prop :=
| reach_boot (d : Db) : reachable (mkWorld d ∅)
| reach_call (r : call) (w : World) : reachable w → reachable (handle r w).2
| reach_store (d : Db) (w : World) :
    reachable w → reachable (mkWorld d (_ACTIVE_SESSIONS w)).

End WithParser.

End Boss.

(** ** [app/routers/text_ai.py] *)

Module ReflectionCreate.
(** [TextAIReflectionCreate] of [app/schemas.py]. *)
Record t := mk { user : string; reflection_text : string; date : option Z }.
End ReflectionCreate.

(** The [data] argument of [add_reflection]: a validated model, a plain
    dict (text values), or nothing. *)
Inductive reflection_body :=
| BodyModel (m : ReflectionCreate.t)
| BodyDict (d : gmap string string)
| BodyNone.

Module ReflectionCall.
(** [raw] holds the fields [request.json()] or [request.form()] yielded when
    [data] is [None]; [user] and [text] are the query parameters. *)
Record t := mk {
  data : reflection_body;
  raw : gmap string string;
  user : option string;
  text : option string }.
End ReflectionCall.

Module Feedback.
(** The dict [generate_ai_feedback] returns. *)
Record t := mk { feedback : Py.json; summary : Py.json; xp_reward : Z }.
End Feedback.

Module TextAI.

Import Py.

(** [str.lower()], on the ASCII letters. *)
Definition lower_char (c : ascii) : ascii :=
  let n := nat_of_ascii c in
  if ((65 <=? n) && (n <=? 90))%nat then ascii_of_nat (n + 32) else c.

Fixpoint lower (s : string) : string :=
  match s with
  | EmptyString => EmptyString
  | String c rest => String (lower_char c) (lower rest)
  end.

(** [word in text] *)
Fixpoint contains (word text : string) : bool :=
  String.prefix word text ||
  match text with
  | EmptyString => false
  | String _ rest => contains word rest
  end.

Definition any_word_in (words : list string) (text : string) : bool :=
  existsb (fun word => contains word text) words.

Definition _mock_ai_feedback (reflection_text : string) : Feedback.t :=
  let text := lower reflection_text in
  let feedback :=
    if any_word_in ["tired"; "hard"; "struggle"; "stuck"] text
    then "It sounds like you faced challenges today — remember, progress is built through persistence."
    else if any_word_in ["happy"; "productive"; "focused"; "good"; "great"] text
    then "Fantastic work! Keep maintaining that focused mindset."
    else "Keep reflecting — awareness is the key to consistent improvement." in
  let summary := ellipsis 120 reflection_text in
  let xp_reward := 10 in
  Feedback.mk (JStr feedback) (JStr summary) xp_reward.

Section WithParser.
Context `{PyIntParser}.

(** A reply that is no dict has no [get] ([AttributeError]) and [int] of an
    infinity raises [OverflowError]: neither is a [ValueError] or a
    [TypeError], so both reach the outer [except] and the heuristic. *)
Definition generate_ai_feedback (reflection_text : string) (ai : ai_outcome)
  : Feedback.t :=
  match ai with
  | Unconfigured => _mock_ai_feedback reflection_text
  | CallRaises => _mock_ai_feedback reflection_text
  | Reply (JObj data) =>
      let feedback :=
        let v := get_or_null "feedback" data in
        if truthy v then v
        else JStr "Keep going – each reflection helps you improve." in
      let summary :=
        let v := get_or_null "summary" data in
        if truthy v then v else JStr (ellipsis 120 reflection_text) in
      let xp_reward :=
        match get "xp_reward" data with Some v => v | None => JInt 10 end in
      match Py.int xp_reward with
      | IntOk z => Feedback.mk feedback summary (Z.max 5 (Z.min 25 z))
      | IntValueError | IntTypeError =>
          Feedback.mk feedback summary (Z.max 5 (Z.min 25 10))
      | IntOverflowError => _mock_ai_feedback reflection_text
      end
  | Reply _ => _mock_ai_feedback reflection_text
  end.

(** The dict [incoming] once the body has been merged into it. *)
Definition incoming (c : ReflectionCall.t) : gmap string string :=
  match ReflectionCall.data c with
  | BodyModel m =>
      <["user" := ReflectionCreate.user m]>
        (<["reflection_text" := ReflectionCreate.reflection_text m]> ∅)
  | BodyDict d => d
  | BodyNone => ReflectionCall.raw c
  end.

(** [incoming.get("date")]: the model's datetime when it has one, else the
    text stored under "date". *)
Definition incoming_date (c : ReflectionCall.t) : option datev :=
  match ReflectionCall.data c with
  | BodyModel m => DTime <$> ReflectionCreate.date m
  | _ => DRaw <$> (incoming c !! "date")
  end.

Definition date_truthy (d : option datev) : bool :=
  match d with
  | Some (DTime _) => true
  | Some (DRaw s) => negb (String.eqb s "")
  | None => false
  end.

(** [incoming.get("date") or (data.date if data else None) or
    datetime.utcnow()]. A dict has no attribute [date]. *)
Definition reflection_date (c : ReflectionCall.t) (now : Z) : outcome datev :=
  let fallback :=
    match ReflectionCall.data c with
    | BodyModel m =>
        Ok (match ReflectionCreate.date m with Some t => DTime t | None => DTime now end)
    | BodyDict d =>
        if bool_decide (d = ∅) then Ok (DTime now) else Crash AttributeError
    | BodyNone => Ok (DTime now)
    end in
  match incoming_date c with
  | Some d => if date_truthy (Some d) then Ok d else fallback
  | None => fallback
  end.

Definition resolve_user (c : ReflectionCall.t) : option string :=
  str_or (incoming c !! "user")
    (str_or (incoming c !! "username") (ReflectionCall.user c)).

Definition resolve_text (c : ReflectionCall.t) : option string :=
  str_or (incoming c !! "reflection_text")
    (str_or (incoming c !! "reflectionText")
       (str_or (incoming c !! "text")
          (str_or (incoming c !! "reflection") (ReflectionCall.text c)))).

Definition add_reflection (c : ReflectionCall.t) (ai : ai_outcome) (now : Z)
    (w : World) : outcome TextAIReflection.t * World :=
  match (if str_truthy (resolve_user c) then resolve_user c else None) with
  | None => (HttpError 400 "user is required.", w)
  | Some username =>
  match (if str_truthy (resolve_text c) then resolve_text c else None) with
  | None => (HttpError 400 "reflection_text is required.", w)
  | Some reflection_text =>
  match find_user username (db w) with
  | None => (HttpError 404 "User not found. Please register first.", w)
  | Some _ =>
  let ai_result := generate_ai_feedback reflection_text ai in
  match reflection_date c now with
  | HttpError code d => (HttpError code d, w)
  | Crash e => (Crash e, w)
  | Ok date =>
  let reflection :=
    TextAIReflection.mk username date reflection_text
      (Feedback.feedback ai_result) (Feedback.summary ai_result)
      (Feedback.xp_reward ai_result) in
  (Ok reflection,
   mkWorld
     (mkDb (users (db w)) (boss_battles (db w))
        (reflections (db w) ++ [reflection]) (progress (db w)))
     (_ACTIVE_SESSIONS w))
  end
  end
  end
  end.

End WithParser.

Definition list_reflections (user : string) (w : World)
  : outcome (list TextAIReflection.t) * World :=
  match find_user user (db w) with
  | None => (HttpError 404 "User not found. Please register first.", w)
  | Some _ =>
      match filter (fun r => TextAIReflection.user r = user) (reflections (db w)) with
      | [] => (HttpError 404 "No reflections found for this user.", w)
      | found => (Ok found, w)
      end
  end.

End TextAI.

(** ** [app/routers/home.py] *)

Module Dashboard.
(** The figures of the dashboard body; its fixed texts and link tables are
    left out. *)
Record t := mk {
  user : string;
  total_xp : option Z;
  total_sessions : Z;
  current_streak_days : Z;
  recent_sessions : list Progress.t }.
End Dashboard.

Module Home.

(** [s.date.date()] as a day number. *)
Definition day_of (t : Z) : Z := t `div` 86400000000.

(** [sorted({...})]: ascending, without repetition. *)
Fixpoint insert_day (d : Z) (days : list Z) : list Z :=
  match days with
  | [] => [d]
  | x :: rest =>
      if d <? x then d :: days
      else if d =? x then days
      else x :: insert_day d rest
  end.

Definition sorted_days (sessions : list Progress.t) : list Z :=
  foldr insert_day [] (map (fun s => day_of (Progress.date s)) sessions).

(** The loop of [calculate_streak], walking from the latest day back:
    [latest] is [dates[i]], the head of [earlier] is [dates[i - 1]]. *)
Fixpoint streak_from (latest : Z) (earlier : list Z) (streak : Z) : Z :=
  match earlier with
  | [] => streak
  | d :: rest =>
      if latest - d =? 1 then streak_from d rest (streak + 1) else streak
  end.

Definition calculate_streak (sessions : list Progress.t) : Z :=
  match sessions with
  | [] => 0
  | _ =>
      match rev (sorted_days sessions) with
      | [] => 1
      | latest :: earlier => streak_from latest earlier 1
      end
  end.

(** [sessions.sort(key=lambda x: x.date, reverse=True)]: stable, latest
    first. *)
Fixpoint insert_recent (s : Progress.t) (sorted : list Progress.t) : list Progress.t :=
  match sorted with
  | [] => [s]
  | x :: rest =>
      if Progress.date x <? Progress.date s then s :: sorted
      else x :: insert_recent s rest
  end.

Definition sort_recent (sessions : list Progress.t) : list Progress.t :=
  foldl (fun acc s => insert_recent s acc) [] sessions.

Definition sum_xp (sessions : list Progress.t) : Z :=
  foldr (fun s acc => Progress.xp_gained s + acc) 0 sessions.

Definition get_dashboard (user : string) (w : World)
  : outcome Dashboard.t * World :=
  match find_user user (db w) with
  | None => (HttpError 404 "User not found. Please register first.", w)
  | Some user_obj =>
      match filter (fun s => Progress.user s = user) (progress (db w)) with
      | [] => (Ok (Dashboard.mk user (User.total_xp user_obj) 0 0 []), w)
      | sessions =>
          let sessions := sort_recent sessions in
          let total_xp :=
            match User.total_xp user_obj with
            | Some xp => if xp =? 0 then sum_xp sessions else xp
            | None => sum_xp sessions
            end in
          (Ok (Dashboard.mk user (Some total_xp) (Z.of_nat (length sessions))
                 (calculate_streak sessions) (take 3 sessions)),
           w)
      end
  end.

End Home.

(** ** Concrete worlds and requests for the examples *)

Module Sample.

Import Py.

(** A reader of plain ASCII decimal literals, the instance of the [int]
    interface the examples run with. *)
Fixpoint digits (s : string) (acc : Z) : option Z :=
  match s with
  | EmptyString => Some acc
  | String c rest =>
      let n := Z.of_nat (nat_of_ascii c) in
      if (48 <=? n) && (n <=? 57) then digits rest (10 * acc + (n - 48)) else None
  end.

Definition decimal : PyIntParser :=
  fun s => match s with EmptyString => None | _ => digits s 0 end.

Definition second : Z := 1000000.

Definition alice : User.t := User.mk "alice" None (Some 40).

Definition store : Db := mkDb [alice] [] [] [].

(** Nobody is playing. *)
Definition idle : World := mkWorld store ∅.

(** alice, one of two bank questions answered correctly, three minutes on
    the clock since time 0. *)
Definition midway : Sess.t :=
  Sess.mk "medium" 0 180 3 1 1 2 (take 2 Boss._QUESTIONS).

Definition playing : World := mkWorld store {[ "alice" := midway ]}.




(** A reply of the chat-completion API that holds one usable question. *)
Definition sum_question : json :=
  JObj [("question", JStr "What is 2 + 2?");
        ("choices", JList [JStr "3"; JStr "4"]);
        ("answer_idx", JInt 1)].

Definition one_question_reply : ai_outcome :=
  Reply (JObj [("questions", JList [sum_question])]).

Definition start_two : StartRequest.t :=
  StartRequest.mk "alice" None (Some 2) None.

Definition answer (choice : Z) : AnswerCall.t :=
  AnswerCall.mk (Some (AnswerRequest.mk "alice" choice)) ∅ None None.

End Sample.

Module SampleCalls.

(** Requests used by the examples of the error paths. *)

(** A start request of a registered player that asks for no question. *)
Definition start_none : StartRequest.t :=
  StartRequest.mk "alice" None (Some 0) None.

(** The same from a name nobody registered. *)
Definition ghost_start_none : StartRequest.t :=
  StartRequest.mk "ghost" None (Some 0) None.

(** A reflection request that names an unregistered user in the query string
    and carries no text at all. *)
Definition ghost_no_text : ReflectionCall.t :=
  ReflectionCall.mk BodyNone ∅ (Some "ghost") None.

(** The same name with a text. *)
Definition ghost_reflects : ReflectionCall.t :=
  ReflectionCall.mk BodyNone ∅ (Some "ghost") (Some "Hello").

(** A validated reflection of alice, without a date. *)
Definition alice_reflects : ReflectionCall.t :=
  ReflectionCall.mk
    (BodyModel (ReflectionCreate.mk "alice" "Felt stuck on recursion today" None))
    ∅ None None.

Definition start_five : StartRequest.t :=
  StartRequest.mk "alice" (Some "hard") (Some 9) (Some 60).

(** An answer request with neither body nor query parameters. *)
Definition empty_answer : AnswerCall.t := AnswerCall.mk None ∅ None None.

End SampleCalls.

(** ** Ranges in which the model is exact *)

(** [_time_remaining] subtracts in double precision. With a limit and a span
    since the start of at most 2^31 seconds in absolute value, every
    intermediate value is within a microsecond fraction of the exact one and
    the truncation agrees with the quotient on microseconds. *)
Definition in_double_range (now : Z) (sess : Sess.t) : Prop :=
  Z.abs (Sess.time_limit_seconds sess) ≤ 2 ^ 31
  ∧ Z.abs (now - Sess.started_at sess) ≤ 2 ^ 31 * 1000000.

(** A text of ASCII characters only: one byte per character, so that the
    lengths and prefixes of the model are those of the Python string. *)
Fixpoint is_ascii (s : string) : bool :=
  match s with
  | EmptyString => true
  | String c rest => (nat_of_ascii c <? 128)%nat && is_ascii rest
  end.

(** ** Runs of requests under [/boss] *)

(** A quiz entry as the validation of [_generate_ai_questions] lets it
    through: a text that is truthy and two to four choices. *)
Definition valid_question (q : Question.t) : Prop :=
  Py.truthy (Question.question q) = true
  ∧ (2 ≤ length (Question.choices q) ≤ 4)%nat.

Module Play.

(** The player a request is about: the path or body parameter, and for an
    answer the name [submit_answer] resolves. *)
Definition player_of (r : Boss.call) : option string :=
  match r with
  | Boss.Start payload _ _ => Some (StartRequest.user payload)
  | Boss.GetQuestion user _ _ => Some user
  | Boss.Answer c _ _ => Boss.resolve_username c
  | Boss.GetStatus user _ _ => Some user
  | Boss.Forfeit user _ => Some user
  end.

(** A session whose quiz holds a question for every index below
    total_questions. *)
Definition quiz_complete (s : Sess.t) : Prop :=
  0 ≤ Sess.index s
  ∧ Z.of_nat (length (Sess.questions s)) = Sess.total_questions s.

Definition quizzes_complete (w : World) : Prop :=
  ∀ user s, _ACTIVE_SESSIONS w !! user = Some s → quiz_complete s.

(** A request that does not depend on a chat-completion reply. *)
Definition offline (r : Boss.call) : Prop :=
  match r with
  | Boss.Start _ (Reply _) _ => False
  | _ => True
  end.

(** A body other than the one [_end_session] builds. *)
Definition not_ended (o : outcome Boss.response) : Prop :=
  ∀ status score xp total lives, o ≠ Ok (Boss.Ended status score xp total lives).

(** What a request can do to the world: nothing; store or update the dict of
    its player; or end the player's session, as it stood or right after an
    update. *)
Inductive effect (r : Boss.call) (w : World)
  : outcome Boss.response * World → Prop :=
| effect_none (o : outcome Boss.response) :
    not_ended o → effect r w (o, w)
| effect_update (o : outcome Boss.response) (user : string) (s : Sess.t) :
    not_ended o →
    player_of r = Some user →
    effect r w (o, mkWorld (db w) (<[user := s]> (_ACTIVE_SESSIONS w)))
| effect_close (user status : string) (t : Z) (sess : Sess.t) :
    player_of r = Some user →
    _ACTIVE_SESSIONS w !! user = Some sess →
    effect r w (Boss.closing user status t w sess)
| effect_close_updated (user status : string) (t : Z) (b : bool) (prev : Sess.t) :
    player_of r = Some user →
    _ACTIVE_SESSIONS w !! user = Some prev →
    effect r w
      (Boss.closing user status t
         (mkWorld (db w) (<[user := Boss.record_answer b prev]> (_ACTIVE_SESSIONS w)))
         (Boss.record_answer b prev)).

(** One POST /boss/answer with its two clock readings. *)
Record turn := mkTurn { request : AnswerCall.t; at_check : Z; at_end : Z }.

Section WithParser.
Context `{PyIntParser}.

(** A turn that gives the right answer to [q] for [user] while the session
    [sess] still has time left. *)
Definition right_answer (user : string) (sess : Sess.t) (t : turn)
    (q : Question.t) : Prop :=
  Boss.names (request t) user (Question.answer_idx q)
  ∧ Boss._time_remaining (at_check t) sess ≠ 0.

(** The world after a series of answers, one request after the other. *)
Fixpoint answer_all (turns : list turn) (w : World) : World :=
  match turns with
  | [] => w
  | t :: rest =>
      answer_all rest (Boss.submit_answer (request t) (at_check t) (at_end t) w).2
  end.

End WithParser.

End Play.

(** ** Study days *)

(** The calendar days on which the sessions took place, one entry per
    session. *)
Definition study_days (sessions : list Progress.t) : list Z :=
  map (λ s, Home.day_of (Progress.date s)) sessions.

(** "No earlier than": the order of the dashboard's recent sessions. *)
Definition no_earlier (a b : Progress.t) : Prop := Progress.date b ≤ Progress.date a.

(** The rows of one user in the study log. *)
Definition study_log (user : string) (w : World) : list Progress.t :=
  filter (λ s, Progress.user s = user) (progress (db w)).

Module SampleRuns.

(** A start request whose total_questions is null. *)
Definition start_null : StartRequest.t := StartRequest.mk "alice" None None None.

(** Two answers of alice, one and two seconds into the game. *)
Definition two_turns : list Play.turn :=
  [Play.mkTurn (Sample.answer 1) Sample.second Sample.second;
   Play.mkTurn (Sample.answer 0) (2 * Sample.second) (2 * Sample.second)].

(** The right answers to the two questions, in time. *)
Definition right_turns : list Play.turn :=
  [Play.mkTurn (Sample.answer 1) Sample.second Sample.second;
   Play.mkTurn (Sample.answer 1) (2 * Sample.second) (3 * Sample.second)].

(** alice at the start of a game of two bank questions. *)
Definition fresh : Sess.t :=
  Sess.mk "medium" 0 180 3 0 0 2 (take 2 Boss._QUESTIONS).

Definition opening : World := mkWorld Sample.store {[ "alice" := fresh ]}.

Definition day : Z := 86400000000.

(** Study sessions of alice on days 3, 5, 4 (twice) and 1, as stored. *)
Definition log : list Progress.t :=
  [Progress.mk "alice" (3 * day + 7) (Some 30) None 10;
   Progress.mk "alice" (5 * day) (Some 25) None 15;
   Progress.mk "alice" (4 * day + 1) None None 5;
   Progress.mk "alice" (4 * day + 9) (Some 10) (Some "late") 5;
   Progress.mk "alice" day (Some 60) None 20].

Definition studying : World := mkWorld (mkDb [Sample.alice] [] [] log) ∅.

(** A reflection sent as a plain JSON object under the alias keys, without
    a date. *)
Definition alias_body : ReflectionCall.t :=
  ReflectionCall.mk
    (BodyDict (<["username" := "alice"]> (<["text" := "Good session"]> ∅)))
    ∅ None None.

End SampleRuns.

(** * Properties *)

(** ** Store lemmas *)

Lemma find_update_first {A} (p : A → bool) (f : A → A) (l : list A) :
  (∀ x, p (f x) = p x) →
  find p (update_first p f l) = f <$> find p l.
Proof.
  intros Hp. induction l as [|x l IH]; simpl; [done|].
  destruct (p x) eqn:Hx; simpl.
  - by rewrite Hp, Hx.
  - by rewrite Hx.
Qed.

Lemma find_update_first_other {A} (p q : A → bool) (f : A → A) (l : list A) :
  (∀ x, q (f x) = q x) →
  (∀ x, p x = true → q x = false) →
  find q (update_first p f l) = find q l.
Proof.
  intros Hq Hpq. induction l as [|x l IH]; simpl; [done|].
  destruct (p x) eqn:Hx; simpl.
  - by rewrite Hq, (Hpq x Hx).
  - by rewrite IH.
Qed.

Lemma str_truthy_nonempty (s : string) :
  s ≠ "" → Py.str_truthy (Some s) = true.
Proof. intros Hne. simpl. by apply negb_true_iff, String.eqb_neq. Qed.

Section BossFacts.
Context `{PyIntParser}.

Lemma get_session_gone (user : string) (w : World) :
  _ACTIVE_SESSIONS w !! user = None →
  Boss._get_session user w = HttpError 404 "No active boss battle. Start one first.".
Proof. intros Hw. unfold Boss._get_session. by rewrite Hw. Qed.

Lemma routes_need_a_session (user : string) (w : World) :
  _ACTIVE_SESSIONS w !! user = None →
  (∀ t t', status_of (Boss.get_current_question user t t' w).1 = 404
           ∧ (Boss.get_current_question user t t' w).2 = w)
  ∧ (∀ t t', status_of (Boss.get_status user t t' w).1 = 404
             ∧ (Boss.get_status user t t' w).2 = w)
  ∧ (∀ t, status_of (Boss.forfeit user t w).1 = 404
          ∧ (Boss.forfeit user t w).2 = w)
  ∧ (∀ c t t', Boss.resolve_username c = Some user →
        (status_of (Boss.submit_answer c t t' w).1 = 400
         ∨ status_of (Boss.submit_answer c t t' w).1 = 404)
        ∧ (Boss.submit_answer c t t' w).2 = w).
Proof.
  intros Hgone. pose proof (get_session_gone user w Hgone) as Hget.
  split; [|split; [|split]].
  - intros t t'. unfold Boss.get_current_question. by rewrite Hget.
  - intros t t'. unfold Boss.get_status. by rewrite Hget.
  - intros t. unfold Boss.forfeit. by rewrite Hget.
  - intros c t t' Hc. unfold Boss.submit_answer. rewrite Hc.
    destruct (Py.str_truthy (Some user)); [|by auto].
    destruct (Boss.resolve_choice c); [|by auto].
    rewrite Hget. auto.
Qed.

(** C1. Ending a live session, whatever the terminal status, appends one
    [BossBattle] row holding the session's score, total_questions and
    difficulty, an xp_reward of 20 times the score and completed = True;
    raises the total_xp of the player's User row by the same 20 times the
    score (an unset total_xp counting as 0) and touches no other player's
    row; and deletes the session from [_ACTIVE_SESSIONS], after which every
    session route of that player answers with an error and changes nothing. *)
Theorem end_session_persists_and_discards
    (user status : string) (now : Z) (w : World) (sess : Sess.t) :
  _ACTIVE_SESSIONS w !! user = Some sess →
  let xp := 20 * Sess.score sess in
  let w' := (Boss._end_session user status now w).2 in
  (Boss._end_session user status now w).1 =
    Boss.Ended status (Sess.score sess) xp (Sess.total_questions sess) (Sess.lives sess)
  ∧ boss_battles (db w') =
      boss_battles (db w) ++
      [BossBattle.mk user now (Sess.score sess) (Sess.total_questions sess) xp
         (Sess.difficulty sess) true]
  ∧ (∀ usr, find_user user (db w) = Some usr →
       find_user user (db w') =
         Some (User.mk (User.username usr) (User.email usr)
                 (Some (Py.int_or (User.total_xp usr) 0 + xp))))
  ∧ (∀ other, other ≠ user → find_user other (db w') = find_user other (db w))
  ∧ _ACTIVE_SESSIONS w' = delete user (_ACTIVE_SESSIONS w)
  ∧ _ACTIVE_SESSIONS w' !! user = None
  ∧ (∀ t t', status_of (Boss.get_current_question user t t' w').1 = 404
             ∧ (Boss.get_current_question user t t' w').2 = w')
  ∧ (∀ t t', status_of (Boss.get_status user t t' w').1 = 404
             ∧ (Boss.get_status user t t' w').2 = w')
  ∧ (∀ t, status_of (Boss.forfeit user t w').1 = 404
          ∧ (Boss.forfeit user t w').2 = w')
  ∧ (∀ c t t', Boss.resolve_username c = Some user →
        (status_of (Boss.submit_answer c t t' w').1 = 400
         ∨ status_of (Boss.submit_answer c t t' w').1 = 404)
        ∧ (Boss.submit_answer c t t' w').2 = w').
Proof.
  intros Hs xp w'.
  assert (Hxp : Sess.score sess * 20 = xp) by (subst xp; lia).
  assert (Hname : ∀ x, String.eqb (User.username (User.add_xp xp x)) user
                       = String.eqb (User.username x) user) by done.
  subst w'. unfold Boss._end_session. rewrite Hs. rewrite Hxp.
  destruct (find_user user (db w)) as [found|] eqn:Hu; simpl.
  - split; [done|]. split; [done|]. split.
    { intros usr [= <-]. unfold find_user in *. simpl.
      rewrite find_update_first by exact Hname. by rewrite Hu. }
    split.
    { intros other Hne. unfold find_user. simpl.
      apply find_update_first_other; [done|].
      intros x Hx. apply String.eqb_eq in Hx. apply String.eqb_neq. congruence. }
    split; [done|]. split; [apply lookup_delete_eq|].
    apply routes_need_a_session. simpl. apply lookup_delete_eq.
  - split; [done|]. split; [done|]. split; [by intros usr|]. split; [done|].
    split; [done|]. split; [apply lookup_delete_eq|].
    apply routes_need_a_session. simpl. apply lookup_delete_eq.
Qed.

End BossFacts.

Lemma end_session_persists_and_discards_witness :
  (Boss._end_session "alice" "timeout" (200 * Sample.second) Sample.playing).1
    = Boss.Ended "timeout" 1 20 2 3
  ∧ find_user "alice"
      (db (Boss._end_session "alice" "timeout" (200 * Sample.second) Sample.playing).2)
    = Some (User.mk "alice" None (Some 60)).
Proof.
  pose proof (end_session_persists_and_discards (H := Sample.decimal)
                "alice" "timeout" (200 * Sample.second) Sample.playing
                Sample.midway eq_refl) as P.
  destruct P as (P1 & _ & P3 & _). split; [exact P1 | exact (P3 Sample.alice eq_refl)].
Defined.

(** ** The clock *)

Lemma time_remaining_zero_iff (now : Z) (sess : Sess.t) :
  Boss._time_remaining now sess = 0 ↔
  Sess.time_limit_seconds sess * 1000000 - (now - Sess.started_at sess) < 1000000.
Proof.
  unfold Boss._time_remaining.
  set (x := Sess.time_limit_seconds sess * 1000000 - (now - Sess.started_at sess)).
  split.
  - intros Hz. destruct (Z.lt_ge_cases x 1000000) as [|Hge]; [done|].
    pose proof (Z.quot_le_lower_bound x 1000000 1 ltac:(lia) ltac:(lia)). lia.
  - intros Hlt. destruct (Z.le_gt_cases 0 x) as [Hpos|Hneg].
    + rewrite Z.quot_small by lia. lia.
    + pose proof (Z.quot_le_mono x 0 1000000 ltac:(lia) ltac:(lia)) as Hq.
      rewrite Z.quot_0_l in Hq by lia. lia.
Qed.

Lemma time_limit_reached (now : Z) (sess : Sess.t) :
  Sess.time_limit_seconds sess * 1000000 ≤ now - Sess.started_at sess →
  Boss._time_remaining now sess = 0.
Proof. intros Hle. apply time_remaining_zero_iff. lia. Qed.

(** ** Ending a session *)

Lemma ended_closing (user status : string) (now : Z) (w : World) (sess : Sess.t) :
  _ACTIVE_SESSIONS w !! user = Some sess →
  Boss.ended user status now w = Boss.closing user status now w sess.
Proof.
  intros Hs. unfold Boss.closing, Boss.ended, Boss._end_session. rewrite Hs. simpl.
  by replace (Sess.score sess * 20) with (20 * Sess.score sess) by lia.
Qed.

Lemma closing_discards (user status : string) (now : Z) (w : World) (sess : Sess.t) :
  _ACTIVE_SESSIONS w !! user = Some sess →
  _ACTIVE_SESSIONS (Boss.closing user status now w sess).2 = delete user (_ACTIVE_SESSIONS w).
Proof. intros Hs. unfold Boss.closing, Boss._end_session. by rewrite Hs. Qed.

Lemma get_session_found (user : string) (w : World) (sess : Sess.t) :
  _ACTIVE_SESSIONS w !! user = Some sess → Boss._get_session user w = Ok sess.
Proof. intros Hs. unfold Boss._get_session. by rewrite Hs. Qed.

(** ** Answers *)

Lemma record_answer_index (b : bool) (sess : Sess.t) :
  Sess.index (Boss.record_answer b sess) = Sess.index sess + 1.
Proof. by destruct b. Qed.

Lemma record_answer_correct (sess : Sess.t) :
  Sess.score (Boss.record_answer true sess) = Sess.score sess + 1
  ∧ Sess.lives (Boss.record_answer true sess) = Sess.lives sess.
Proof. done. Qed.

Lemma record_answer_wrong (sess : Sess.t) :
  Sess.lives (Boss.record_answer false sess) = Sess.lives sess - 1
  ∧ Sess.score (Boss.record_answer false sess) = Sess.score sess.
Proof. done. Qed.

Lemma record_answer_frame (b : bool) (sess : Sess.t) :
  Sess.total_questions (Boss.record_answer b sess) = Sess.total_questions sess
  ∧ Sess.questions (Boss.record_answer b sess) = Sess.questions sess
  ∧ Sess.started_at (Boss.record_answer b sess) = Sess.started_at sess
  ∧ Sess.time_limit_seconds (Boss.record_answer b sess) = Sess.time_limit_seconds sess
  ∧ Sess.difficulty (Boss.record_answer b sess) = Sess.difficulty sess.
Proof. by destruct b. Qed.

Section AnswerFacts.
Context `{PyIntParser}.

(** What [submit_answer] does once it holds a session. *)
Lemma submit_answer_session (c : AnswerCall.t) (now later : Z) (w : World)
    (user : string) (choice : Z) (sess : Sess.t) :
  Boss.names c user choice →
  _ACTIVE_SESSIONS w !! user = Some sess →
  Boss.submit_answer c now later w =
    if Boss._time_remaining now sess =? 0 then Boss.closing user "timeout" later w sess else
    if Sess.index sess >=? Sess.total_questions sess
    then Boss.closing user "completed" later w sess else
    match Py.index (Sess.questions sess) (Sess.index sess) with
    | None => (Crash IndexError, w)
    | Some q =>
        let is_correct := choice =? Question.answer_idx q in
        let sess' := Boss.record_answer is_correct sess in
        let w' := mkWorld (db w) (<[user := sess']> (_ACTIVE_SESSIONS w)) in
        if Sess.lives sess' <=? 0 then Boss.closing user "out_of_lives" later w' sess' else
        if Sess.index sess' >=? Sess.total_questions sess'
        then Boss.closing user "completed" later w' sess' else
        match Py.index (Sess.questions sess') (Sess.index sess') with
        | None => (Crash IndexError, w')
        | Some next_q =>
            (Ok (Boss.Answered is_correct
                   (if is_correct then "Correct! +20 XP" else "Wrong! -1 life")
                   (Sess.lives sess') (Sess.score sess')
                   (Boss._time_remaining later sess') (Sess.index sess' + 1)
                   (Sess.total_questions sess') (Question.question next_q)
                   (Question.choices next_q)),
             w')
        end
    end.
Proof.
  intros (Hu & Hne & Hc) Hs. unfold Boss.submit_answer. rewrite Hu, Hc.
  rewrite (str_truthy_nonempty user Hne).
  rewrite (get_session_found _ _ _ Hs).
  rewrite !(ended_closing _ _ _ _ _ Hs).
  destruct (Boss._time_remaining now sess =? 0); [done|].
  destruct (Sess.index sess >=? Sess.total_questions sess); [done|].
  destruct (Py.index (Sess.questions sess) (Sess.index sess)) as [q|]; [|done].
  cbv zeta.
  set (sess' := Boss.record_answer (choice =? Question.answer_idx q) sess).
  set (w' := mkWorld (db w) (<[user:=sess']> (_ACTIVE_SESSIONS w))).
  assert (Hs' : _ACTIVE_SESSIONS w' !! user = Some sess') by apply lookup_insert_eq.
  by rewrite !(ended_closing _ _ _ _ _ Hs').
Qed.

End AnswerFacts.

Section SessionFacts.
Context `{PyIntParser}.

(** An answer to a live session that still holds a question at its index
    moves the index on by one and changes either the score or the lives. *)
Lemma answer_moves_on (c : AnswerCall.t) (now later : Z) (w : World)
    (user : string) (choice : Z) (sess : Sess.t) (q : Question.t) :
  Boss.names c user choice →
  _ACTIVE_SESSIONS w !! user = Some sess →
  Boss._time_remaining now sess ≠ 0 →
  Sess.index sess < Sess.total_questions sess →
  Py.index (Sess.questions sess) (Sess.index sess) = Some q →
  ∃ sess',
    Sess.index sess' = Sess.index sess + 1
    ∧ (if choice =? Question.answer_idx q
       then Sess.score sess' = Sess.score sess + 1 ∧ Sess.lives sess' = Sess.lives sess
       else Sess.lives sess' = Sess.lives sess - 1 ∧ Sess.score sess' = Sess.score sess)
    ∧ let w' := mkWorld (db w) (<[user := sess']> (_ACTIVE_SESSIONS w)) in
      ((Boss.submit_answer c now later w).2 = w'
       ∨ (∃ status,
            Boss.submit_answer c now later w = Boss.closing user status later w' sess')).
Proof.
  intros Hn Hs Ht Hi Hq.
  exists (Boss.record_answer (choice =? Question.answer_idx q) sess).
  split; [apply record_answer_index|]. split; [by destruct (choice =? _)|].
  rewrite (submit_answer_session c now later w user choice sess Hn Hs).
  apply Z.eqb_neq in Ht. rewrite Ht.
  assert ((Sess.index sess >=? Sess.total_questions sess) = false) as -> by lia.
  rewrite Hq. cbv zeta.
  repeat match goal with
         | |- context [if ?b then _ else _] => destruct b
         | |- context [match ?o with Some _ => _ | None => _ end] => destruct o
         end; eauto.
Qed.

(** C3 (as amended). Once the time elapsed since the start has reached the
    session's time_limit_seconds, GET /boss/question, GET /boss/status and a
    POST /boss/answer that names the player and carries a choice each end
    the session with status "timeout"; POST /boss/forfeit ends it as well,
    with status "forfeit". Either way the session leaves the map. *)
Theorem time_limit_ends_session (user : string) (now later : Z) (w : World)
    (sess : Sess.t) :
  _ACTIVE_SESSIONS w !! user = Some sess →
  Sess.time_limit_seconds sess * 1000000 ≤ now - Sess.started_at sess →
  Boss.get_current_question user now later w = Boss.closing user "timeout" later w sess
  ∧ Boss.get_status user now later w = Boss.closing user "timeout" later w sess
  ∧ (∀ c choice, Boss.names c user choice →
       Boss.submit_answer c now later w = Boss.closing user "timeout" later w sess)
  ∧ Boss.forfeit user now w = Boss.closing user "forfeit" now w sess
  ∧ (∀ status t, _ACTIVE_SESSIONS (Boss.closing user status t w sess).2 !! user = None).
Proof.
  intros Hs Hlate. pose proof (time_limit_reached now sess Hlate) as Hz.
  split; [|split; [|split; [|split]]].
  - unfold Boss.get_current_question.
    by rewrite (get_session_found _ _ _ Hs), Hz, (ended_closing _ _ _ _ _ Hs).
  - unfold Boss.get_status.
    by rewrite (get_session_found _ _ _ Hs), Hz, (ended_closing _ _ _ _ _ Hs).
  - intros c choice Hn.
    by rewrite (submit_answer_session c now later w user choice sess Hn Hs), Hz.
  - unfold Boss.forfeit.
    by rewrite (get_session_found _ _ _ Hs), (ended_closing _ _ _ _ _ Hs).
  - intros status t. rewrite (closing_discards _ _ _ _ _ Hs). apply lookup_delete_eq.
Qed.

End SessionFacts.

(** C2. The quiz kept in a session can be shorter than its total_questions:
    the chat-completion reply below holds one usable question while two were
    asked for. The first answer is recorded and then fails on the missing
    next question; the session stays active, in time and with its index
    below total_questions, and the next answer fails before anything is
    recorded, so the index does not move. *)
Theorem answer_stalls_on_short_quiz :
  let started :=
    Boss.start_boss_battle (H := Sample.decimal) Sample.start_two
      Sample.one_question_reply 0 Sample.idle in
  let first :=
    Boss.submit_answer (H := Sample.decimal) (Sample.answer 1) Sample.second
      Sample.second started.2 in
  let stuck :=
    Sess.mk "medium" 0 180 3 1 1 2
      [Question.mk (Py.JStr "What is 2 + 2?") [Py.JStr "3"; Py.JStr "4"] 1] in
  status_of started.1 = 200
  ∧ first.1 = Crash IndexError
  ∧ _ACTIVE_SESSIONS first.2 !! "alice" = Some stuck
  ∧ Boss._time_remaining (2 * Sample.second) stuck = 178
  ∧ Sess.index stuck < Sess.total_questions stuck
  ∧ Boss.submit_answer (H := Sample.decimal) (Sample.answer 1)
      (2 * Sample.second) (2 * Sample.second) first.2
    = (Crash IndexError, first.2).
Proof. vm_compute. repeat split; reflexivity. Qed.

Lemma time_limit_ends_session_witness :
  Boss.get_status "alice" (180 * Sample.second) (181 * Sample.second) Sample.playing
  = Boss.closing "alice" "timeout" (181 * Sample.second) Sample.playing Sample.midway.
Proof.
  pose proof (time_limit_ends_session (H := Sample.decimal) "alice"
                (180 * Sample.second) (181 * Sample.second) Sample.playing
                Sample.midway eq_refl ltac:(vm_compute; discriminate)) as P.
  exact (proj1 (proj2 P)).
Defined.

(** The claim of C3 for POST /boss/forfeit fails: a forfeit after the time
    limit reports "forfeit". *)
Lemma forfeit_after_time_limit_reports_forfeit :
  ¬ (∀ (user : string) (now : Z) (w : World) (sess : Sess.t),
       _ACTIVE_SESSIONS w !! user = Some sess →
       Sess.time_limit_seconds sess * 1000000 ≤ now - Sess.started_at sess →
       ∃ score xp total lives,
         (Boss.forfeit user now w).1 = Ok (Boss.Ended "timeout" score xp total lives)).
Proof.
  intros Hall.
  destruct (Hall "alice" (200 * Sample.second) Sample.playing Sample.midway eq_refl
              ltac:(vm_compute; discriminate)) as (sc & xp & tq & lv & Heq).
  vm_compute in Heq. discriminate Heq.
Qed.

Section LivesFacts.
Context `{PyIntParser}.


End LivesFacts.

(** ** The bounds of a stored session *)

Lemma end_session_sessions (user status : string) (t : Z) (w : World) :
  _ACTIVE_SESSIONS (Boss._end_session user status t w).2
  = delete user (_ACTIVE_SESSIONS w).
Proof.
  unfold Boss._end_session.
  destruct (_ACTIVE_SESSIONS w !! user) eqn:Hs; simpl; [done|].
  symmetry. by apply delete_id.
Qed.

Lemma ended_sessions (user status : string) (t : Z) (w : World) :
  _ACTIVE_SESSIONS (Boss.ended user status t w).2 = delete user (_ACTIVE_SESSIONS w).
Proof.
  unfold Boss.ended. rewrite <- (end_session_sessions user status t w).
  by destruct (Boss._end_session user status t w).
Qed.

Lemma sessions_ok_delete (user : string) (w w' : World) :
  Boss.sessions_ok w →
  _ACTIVE_SESSIONS w' = delete user (_ACTIVE_SESSIONS w) →
  Boss.sessions_ok w'.
Proof.
  intros Hok Heq k s. rewrite Heq. intros [_ Hk]%lookup_delete_Some. by eapply Hok.
Qed.

Lemma sessions_ok_insert (user : string) (s : Sess.t) (w w' : World) :
  Boss.sessions_ok w →
  Boss.session_ok s →
  _ACTIVE_SESSIONS w' = <[user := s]> (_ACTIVE_SESSIONS w) →
  Boss.sessions_ok w'.
Proof.
  intros Hok Hs Heq k s'. rewrite Heq.
  intros [[_ <-]|[_ Hk]]%lookup_insert_Some; [done|]. by eapply Hok.
Qed.

Lemma sessions_ok_ended (user status : string) (t : Z) (w : World) :
  Boss.sessions_ok w → Boss.sessions_ok (Boss.ended user status t w).2.
Proof. intros Hok. eapply sessions_ok_delete; [done|]. apply ended_sessions. Qed.

(** Ending right after the in-place update: the updated dict is the one
    that goes. *)
Lemma sessions_ok_updated_ended (user status : string) (t : Z) (w : World) (s : Sess.t) :
  Boss.sessions_ok w →
  Boss.sessions_ok
    (Boss.ended user status t (mkWorld (db w) (<[user := s]> (_ACTIVE_SESSIONS w)))).2.
Proof.
  intros Hok. eapply (sessions_ok_delete user w); [done|].
  rewrite ended_sessions. simpl. apply delete_insert_eq.
Qed.

Lemma record_answer_ok (b : bool) (s : Sess.t) :
  Boss.session_ok s →
  0 < Sess.lives (Boss.record_answer b s) →
  Sess.index (Boss.record_answer b s) < Sess.total_questions (Boss.record_answer b s) →
  Boss.session_ok (Boss.record_answer b s).
Proof. unfold Boss.session_ok. destruct b; simpl; lia. Qed.

Section InvariantFacts.
Context `{PyIntParser}.

Lemma start_keeps_bounds (payload : StartRequest.t) (ai : ai_outcome) (now : Z)
    (w : World) :
  Boss.sessions_ok w → Boss.sessions_ok (Boss.start_boss_battle payload ai now w).2.
Proof.
  intros Hok. unfold Boss.start_boss_battle, Boss._ensure_user_exists.
  destruct (find_user _ _); [|done].
  destruct (StartRequest.total_questions payload) as [requested|]; [|done].
  destruct (requested <? 1) eqn:Hreq; [done|].
  destruct (bool_decide _); [done|].
  match goal with
  | |- Boss.sessions_ok (match ?o with Some _ => (_, ?w') | None => (_, ?w') end).2 =>
      assert (Boss.sessions_ok w') as Hok'; [|by destruct o]
  end.
  eapply sessions_ok_insert; [exact Hok| |done].
  unfold Boss.session_ok. simpl.
  destruct (requested =? 0) eqn:Hz; simpl; lia.
Qed.

Lemma question_keeps_bounds (user : string) (now later : Z) (w : World) :
  Boss.sessions_ok w → Boss.sessions_ok (Boss.get_current_question user now later w).2.
Proof.
  intros Hok. unfold Boss.get_current_question.
  destruct (Boss._get_session user w); [|done..].
  repeat match goal with
         | |- context [if ?b then _ else _] => destruct b
         end; try by apply sessions_ok_ended.
  by destruct (Py.index _ _).
Qed.

Lemma status_keeps_bounds (user : string) (now later : Z) (w : World) :
  Boss.sessions_ok w → Boss.sessions_ok (Boss.get_status user now later w).2.
Proof.
  intros Hok. unfold Boss.get_status.
  destruct (Boss._get_session user w); [|done..].
  cbv zeta. destruct (_ =? 0); [by apply sessions_ok_ended|done].
Qed.

Lemma forfeit_keeps_bounds (user : string) (now : Z) (w : World) :
  Boss.sessions_ok w → Boss.sessions_ok (Boss.forfeit user now w).2.
Proof.
  intros Hok. unfold Boss.forfeit.
  destruct (Boss._get_session user w); [|done..]. by apply sessions_ok_ended.
Qed.

Lemma answer_keeps_bounds (c : AnswerCall.t) (now later : Z) (w : World) :
  Boss.sessions_ok w → Boss.sessions_ok (Boss.submit_answer c now later w).2.
Proof.
  intros Hok. unfold Boss.submit_answer.
  destruct (if Py.str_truthy _ then _ else _) as [username|]; [|done].
  destruct (Boss.resolve_choice c) as [choice|]; [|done].
  unfold Boss._get_session.
  destruct (_ACTIVE_SESSIONS w !! username) as [sess|] eqn:Hs; [|done].
  destruct (_ =? 0); [by apply sessions_ok_ended|].
  destruct (_ >=? _); [by apply sessions_ok_ended|].
  destruct (Py.index _ _) as [q|]; [|done].
  cbv zeta.
  set (sess' := Boss.record_answer (choice =? Question.answer_idx q) sess).
  destruct (Sess.lives sess' <=? 0) eqn:Hl; [by apply sessions_ok_updated_ended|].
  destruct (Sess.index sess' >=? Sess.total_questions sess') eqn:Hi;
    [by apply sessions_ok_updated_ended|].
  assert (Boss.sessions_ok (mkWorld (db w) (<[username:=sess']> (_ACTIVE_SESSIONS w)))).
  { eapply sessions_ok_insert; [exact Hok| |done].
    apply record_answer_ok; [by eapply Hok|fold sess'; lia..]. }
  by destruct (Py.index _ _).
Qed.

Lemma handle_keeps_bounds (r : Boss.call) (w : World) :
  Boss.sessions_ok w → Boss.sessions_ok (Boss.handle r w).2.
Proof.
  destruct r; simpl.
  - apply start_keeps_bounds.
  - apply question_keeps_bounds.
  - apply answer_keeps_bounds.
  - apply status_keeps_bounds.
  - apply forfeit_keeps_bounds.
Qed.

(** C10. In every world the service can reach, and so after any handler
    under /boss has run, each session still in [_ACTIVE_SESSIONS] has
    1 <= lives <= 3, 0 <= score <= index < total_questions and
    total_questions <= 5, whether the questions came from the static bank or
    from the chat-completion reply. *)
Theorem active_sessions_stay_in_bounds (w : World) :
  Boss.reachable w →
  ∀ user s, _ACTIVE_SESSIONS w !! user = Some s →
    1 ≤ Sess.lives s ≤ 3
    ∧ 0 ≤ Sess.score s ≤ Sess.index s
    ∧ Sess.index s < Sess.total_questions s
    ∧ Sess.total_questions s ≤ 5.
Proof.
  intros Hreach. change (Boss.sessions_ok w).
  induction Hreach as [d|r w _ IH|d w _ IH].
  - intros user s. simpl. by rewrite lookup_empty.
  - by apply handle_keeps_bounds.
  - exact IH.
Qed.

End InvariantFacts.

Lemma active_sessions_stay_in_bounds_witness :
  let w :=
    (Boss.handle (H := Sample.decimal)
       (Boss.Start Sample.start_two Sample.one_question_reply 0) Sample.idle).2 in
  ∃ s, _ACTIVE_SESSIONS w !! "alice" = Some s
       ∧ 1 ≤ Sess.lives s ≤ 3
       ∧ 0 ≤ Sess.score s ≤ Sess.index s
       ∧ Sess.index s < Sess.total_questions s
       ∧ Sess.total_questions s ≤ 5.
Proof.
  intros w.
  exists (Sess.mk "medium" 0 180 3 0 0 2
            [Question.mk (Py.JStr "What is 2 + 2?") [Py.JStr "3"; Py.JStr "4"] 1]).
  split; [reflexivity|].
  apply (active_sessions_stay_in_bounds (H := Sample.decimal) w
           (Boss.reach_call _ _ (Boss.reach_boot Sample.store)) "alice").
  reflexivity.
Defined.

(** ** Running out of lives *)

Section OutOfLives.
Context `{PyIntParser}.



End OutOfLives.



(** ** The text mentor *)

Lemma mock_xp (text : string) :
  Feedback.xp_reward (TextAI._mock_ai_feedback text) = 10.
Proof. reflexivity. Qed.

Section MentorFacts.
Context `{PyIntParser}.

Lemma feedback_xp_in_range (text : string) (ai : ai_outcome) :
  5 ≤ Feedback.xp_reward (TextAI.generate_ai_feedback text ai) ≤ 25.
Proof.
  unfold TextAI.generate_ai_feedback.
  destruct ai as [| |data]; try (rewrite mock_xp; lia).
  destruct data; try (rewrite mock_xp; lia).
  destruct (Py.int _); simpl; lia.
Qed.

(** The world after a reflection row has been stored. *)
Lemma add_reflection_outcome (c : ReflectionCall.t) (ai : ai_outcome) (now : Z)
    (w : World) :
  (∃ r,
      TextAI.add_reflection c ai now w =
        (Ok r,
         mkWorld
           (mkDb (users (db w)) (boss_battles (db w)) (reflections (db w) ++ [r])
              (progress (db w)))
           (_ACTIVE_SESSIONS w))
      ∧ TextAIReflection.xp_reward r
        = Feedback.xp_reward
            (TextAI.generate_ai_feedback (TextAIReflection.reflection_text r) ai))
  ∨ ((∀ r, (TextAI.add_reflection c ai now w).1 ≠ Ok r)
     ∧ (TextAI.add_reflection c ai now w).2 = w).
Proof.
  unfold TextAI.add_reflection.
  destruct (if Py.str_truthy (TextAI.resolve_user c) then _ else _) as [username|];
    [|by right].
  destruct (if Py.str_truthy (TextAI.resolve_text c) then _ else _) as [text|];
    [|by right].
  destruct (find_user username (db w)); [|by right].
  destruct (TextAI.reflection_date c now) as [date| |]; [|by right..].
  left. eexists. split; reflexivity.
Qed.

(** C5. Every row POST /text-ai/ stores has an xp_reward between 5 and 25:
    the heuristic always gives 10, and on the AI path the value found in the
    reply is clamped to [5, 25] after [int], with 10 standing in when [int]
    rejects it (ValueError or TypeError). A request that stores nothing
    leaves the world as it was. *)
Theorem reflection_xp_reward_in_range (c : ReflectionCall.t) (ai : ai_outcome)
    (now : Z) (w : World) :
  (∀ text, Feedback.xp_reward (TextAI._mock_ai_feedback text) = 10)
  ∧ (∀ text data,
       Feedback.xp_reward (TextAI.generate_ai_feedback text (Reply (Py.JObj data)))
       = match Py.int (match Py.get "xp_reward" data with
                       | Some v => v
                       | None => Py.JInt 10
                       end) with
         | Py.IntOk z => Z.max 5 (Z.min 25 z)
         | _ => 10
         end)
  ∧ (∀ text, 5 ≤ Feedback.xp_reward (TextAI.generate_ai_feedback text ai) ≤ 25)
  ∧ ((∃ r,
        (TextAI.add_reflection c ai now w).1 = Ok r
        ∧ reflections (db (TextAI.add_reflection c ai now w).2)
          = reflections (db w) ++ [r]
        ∧ 5 ≤ TextAIReflection.xp_reward r ≤ 25)
     ∨ (TextAI.add_reflection c ai now w).2 = w).
Proof.
  split; [by intros|]. split.
  { intros text data. simpl. by destruct (Py.int _). }
  split; [intros text; apply feedback_xp_in_range|].
  destruct (add_reflection_outcome c ai now w) as [(r & -> & Hxp)|[_ Hw]]; [|by right].
  left. exists r. simpl. split; [done|]. split; [done|].
  rewrite Hxp. apply feedback_xp_in_range.
Qed.

Lemma bank_slice (requested : Z) :
  1 ≤ requested →
  Py.slice_to (Z.min requested (Z.of_nat (length Boss._QUESTIONS))) Boss._QUESTIONS
  = Py.slice_to requested Boss._QUESTIONS.
Proof.
  intros Hreq. change (Z.of_nat (length Boss._QUESTIONS)) with 5.
  unfold Py.slice_to.
  assert ((requested <? 0) = false) as -> by lia.
  assert ((Z.min requested 5 <? 0) = false) as -> by lia.
  destruct (Z.le_gt_cases requested 5) as [Hle|Hgt].
  - by rewrite Z.min_l by lia.
  - rewrite Z.min_r by lia.
    rewrite !take_ge; [done|simpl; lia..].
Qed.

(** The first [requested] entries of the bank, position by position. *)
Lemma bank_slice_lookup (requested : Z) (i : nat) (q : Question.t) :
  1 ≤ requested →
  Py.slice_to requested Boss._QUESTIONS !! i = Some q
  ↔ Z.of_nat i < requested ∧ Boss._QUESTIONS !! i = Some q.
Proof.
  intros Hreq. unfold Py.slice_to. assert ((requested <? 0) = false) as -> by lia.
  destruct (decide (i < Z.to_nat requested)%nat) as [Hlt|Hge].
  - rewrite lookup_take_lt by done. split; [intros Hq; split; [lia|done]|by intros [_ ?]].
  - rewrite lookup_take_ge by lia. split; [done|]. intros [Hi _]. lia.
Qed.

Lemma bank_slice_length (requested : Z) :
  1 ≤ requested →
  Z.of_nat (length (Py.slice_to requested Boss._QUESTIONS)) = Z.min requested 5.
Proof.
  intros Hreq. unfold Py.slice_to. assert ((requested <? 0) = false) as -> by lia.
  rewrite length_take. simpl. lia.
Qed.

(** C6. With the chat-completion API unconfigured, or its call raising, a
    reflection request that names a registered user, carries a text and
    resolves its date is answered, without any error, with the stored row
    built from [_mock_ai_feedback] on the reflection text; and a start
    request of a registered user without a session, for at least one
    question, is answered with the first bank question, the session holding
    the static bank truncated to the requested count: min(requested, 5)
    questions, the i-th being the i-th of the bank for every i below the
    requested count and none beyond. A reply that is no JSON object makes
    the mentor raise inside its [try] and is replaced by the heuristic as
    well. *)
Theorem ai_failure_falls_back (ai : ai_outcome) :
  ai = Unconfigured ∨ ai = CallRaises →
  (∀ c now w username text usr date,
       TextAI.resolve_user c = Some username → username ≠ "" →
       TextAI.resolve_text c = Some text → text ≠ "" →
       find_user username (db w) = Some usr →
       TextAI.reflection_date c now = Ok date →
       let mock := TextAI._mock_ai_feedback text in
       let row :=
         TextAIReflection.mk username date text (Feedback.feedback mock)
           (Feedback.summary mock) (Feedback.xp_reward mock) in
       TextAI.add_reflection c ai now w =
         (Ok row,
          mkWorld
            (mkDb (users (db w)) (boss_battles (db w)) (reflections (db w) ++ [row])
               (progress (db w)))
            (_ACTIVE_SESSIONS w)))
  ∧ (∀ payload now w usr requested,
       find_user (StartRequest.user payload) (db w) = Some usr →
       StartRequest.total_questions payload = Some requested →
       1 ≤ requested →
       _ACTIVE_SESSIONS w !! StartRequest.user payload = None →
       let timer := Py.int_or (StartRequest.time_limit_seconds payload) 180 in
       ∃ questions,
         Z.of_nat (length questions) = Z.min requested 5
         ∧ (∀ i q, questions !! i = Some q
                   ↔ Z.of_nat i < requested ∧ Boss._QUESTIONS !! i = Some q)
         ∧ Boss.start_boss_battle payload ai now w =
             (Ok (Boss.Started (StartRequest.user payload) timer 3 1
                    (Z.min requested 5)
                    (Py.JStr "What is the time complexity of binary search?")
                    [Py.JStr "O(n)"; Py.JStr "O(log n)"; Py.JStr "O(n log n)";
                     Py.JStr "O(1)"]),
              mkWorld (db w)
                (<[StartRequest.user payload :=
                     Sess.mk
                       (Boss.str_or_default (StartRequest.difficulty payload) "medium")
                       now timer 3 0 0 (Z.min requested 5) questions]>
                   (_ACTIVE_SESSIONS w))))
  ∧ (∀ text data,
       (∀ fields, data ≠ Py.JObj fields) →
       TextAI.generate_ai_feedback text (Reply data) = TextAI._mock_ai_feedback text).
Proof.
  intros Hai.
  assert (Hgen : ∀ total,
             Boss._generate_ai_questions total ai = Py.slice_to total Boss._QUESTIONS).
  { intros total. by destruct Hai as [-> | ->]. }
  assert (Hfb : ∀ text,
             TextAI.generate_ai_feedback text ai = TextAI._mock_ai_feedback text).
  { intros text. by destruct Hai as [-> | ->]. }
  split; [|split].
  - intros c now w username text usr date Hu Hne Ht Hte Hfind Hdate mock row.
    unfold TextAI.add_reflection. rewrite Hu, Ht.
    rewrite (str_truthy_nonempty username Hne), (str_truthy_nonempty text Hte).
    by rewrite Hfind, Hdate, Hfb.
  - intros payload now w usr requested Hfind Hreq Hone Hfree timer.
    exists (Py.slice_to requested Boss._QUESTIONS).
    split; [by apply bank_slice_length|].
    split; [intros i q; by apply bank_slice_lookup|].
    unfold Boss.start_boss_battle, Boss._ensure_user_exists.
    rewrite Hfind, Hreq, Hfree.
    assert ((requested <? 1) = false) as -> by lia.
    assert (bool_decide (is_Some (@None Sess.t)) = false) as ->.
    { apply bool_decide_eq_false. by intros [? ?]. }
    assert ((requested =? 0) = false) as -> by lia.
    simpl negb. cbv iota. rewrite Hgen, (bank_slice requested Hone).
    change (Z.of_nat (length Boss._QUESTIONS)) with 5.
    assert (Py.index (Py.slice_to requested Boss._QUESTIONS) 0
            = Some (Question.mk
                      (Py.JStr "What is the time complexity of binary search?")
                      [Py.JStr "O(n)"; Py.JStr "O(log n)"; Py.JStr "O(n log n)";
                       Py.JStr "O(1)"] 1)) as ->.
    { unfold Py.slice_to. assert ((requested <? 0) = false) as -> by lia.
      destruct (Z.to_nat requested) as [|n] eqn:Hn; [lia|]. reflexivity. }
    reflexivity.
  - intros text data Hdata. destruct data; try reflexivity.
    by destruct (Hdata fields).
Qed.

End MentorFacts.

Lemma ai_failure_falls_back_witness :
  (∃ row w',
     TextAI.add_reflection (H := Sample.decimal) SampleCalls.alice_reflects CallRaises
       (9 * Sample.second) Sample.idle = (Ok row, w')
     ∧ TextAIReflection.xp_reward row = 10
     ∧ TextAIReflection.ai_feedback row
       = Feedback.feedback (TextAI._mock_ai_feedback "Felt stuck on recursion today"))
  ∧ (∃ body w',
       Boss.start_boss_battle (H := Sample.decimal) Sample.start_two Unconfigured
         (9 * Sample.second) Sample.idle = (Ok body, w')
       ∧ Sess.questions <$> (_ACTIVE_SESSIONS w' !! "alice")
         = Some
             [Question.mk (Py.JStr "What is the time complexity of binary search?")
                [Py.JStr "O(n)"; Py.JStr "O(log n)"; Py.JStr "O(n log n)";
                 Py.JStr "O(1)"] 1;
              Question.mk (Py.JStr "Which HTTP method is idempotent?")
                [Py.JStr "POST"; Py.JStr "PUT"; Py.JStr "PATCH"; Py.JStr "CONNECT"] 1]).
Proof.
  pose proof (ai_failure_falls_back (H := Sample.decimal)) as P.
  split.
  - destruct (P CallRaises (or_intror eq_refl)) as (Padd & _).
    eexists _, _. split.
    + apply (Padd SampleCalls.alice_reflects (9 * Sample.second) Sample.idle "alice"
               "Felt stuck on recursion today" Sample.alice (DTime (9 * Sample.second)));
        try reflexivity; discriminate.
    + split; reflexivity.
  - destruct (P Unconfigured (or_introl eq_refl)) as (_ & Pstart & _).
    destruct (Pstart Sample.start_two (9 * Sample.second) Sample.idle Sample.alice 2
                eq_refl eq_refl ltac:(discriminate) eq_refl)
      as (questions & Hlen & Hbank & Heq).
    eexists _, _. split; [exact Heq|].
    simpl. rewrite lookup_insert_eq. simpl. f_equal.
    apply list_eq. intros i.
    destruct i as [|[|i]].
    + apply (Hbank 0%nat). split; [reflexivity|reflexivity].
    + apply (Hbank 1%nat). split; [reflexivity|reflexivity].
    + destruct (questions !! S (S i)) as [q|] eqn:Hq; [|reflexivity].
      apply Hbank in Hq as [Hi _]. lia.
Defined.

(** ** Refused requests *)

Section RefusalFacts.
Context `{PyIntParser}.

(** C7 (as amended). While a player has an active session, POST /boss/start
    for that player never succeeds and leaves the world, the session
    included, as it was; the status is 409 when the player's User row exists
    and the request asks for at least one question. *)
Theorem start_refused_while_active (payload : StartRequest.t) (ai : ai_outcome)
    (now : Z) (w : World) (sess : Sess.t) :
  _ACTIVE_SESSIONS w !! StartRequest.user payload = Some sess →
  (Boss.start_boss_battle payload ai now w).2 = w
  ∧ (∀ body, (Boss.start_boss_battle payload ai now w).1 ≠ Ok body)
  ∧ (∀ usr requested,
       find_user (StartRequest.user payload) (db w) = Some usr →
       StartRequest.total_questions payload = Some requested →
       1 ≤ requested →
       (Boss.start_boss_battle payload ai now w).1
         = HttpError 409 "An active boss battle already exists.").
Proof.
  intros Hs. unfold Boss.start_boss_battle, Boss._ensure_user_exists. rewrite Hs.
  assert (bool_decide (is_Some (Some sess)) = true) as ->.
  { by apply bool_decide_eq_true. }
  split; [|split].
  - destruct (find_user _ _); [|done].
    destruct (StartRequest.total_questions payload) as [n|]; [|done].
    by destruct (n <? 1).
  - intros body. destruct (find_user _ _); [|done].
    destruct (StartRequest.total_questions payload) as [n|]; [|done].
    by destruct (n <? 1).
  - intros usr requested -> -> Hone.
    by assert ((requested <? 1) = false) as -> by lia.
Qed.

(** C8 (as amended). For a username without a User row, POST /boss/start,
    GET /home/dashboard and GET /text-ai/ answer 404 and leave the world as
    it was. POST /text-ai/ that resolves to this username changes nothing
    either: it answers 404 when the username is not empty and a reflection
    text is resolved, and 400 otherwise. *)
Theorem unknown_user_is_refused (name : string) (w : World) :
  find_user name (db w) = None →
  (∀ payload ai now,
      StartRequest.user payload = name →
      Boss.start_boss_battle payload ai now w
        = (HttpError 404 "User not found. Please register first.", w))
  ∧ Home.get_dashboard name w
    = (HttpError 404 "User not found. Please register first.", w)
  ∧ TextAI.list_reflections name w
    = (HttpError 404 "User not found. Please register first.", w)
  ∧ (∀ c ai now,
       TextAI.resolve_user c = Some name →
       (TextAI.add_reflection c ai now w).2 = w
       ∧ (status_of (TextAI.add_reflection c ai now w).1 = 400
          ∨ status_of (TextAI.add_reflection c ai now w).1 = 404)
       ∧ (name ≠ "" → Py.str_truthy (TextAI.resolve_text c) = true →
          (TextAI.add_reflection c ai now w).1
            = HttpError 404 "User not found. Please register first.")
       ∧ (name = "" ∨ Py.str_truthy (TextAI.resolve_text c) = false →
          status_of (TextAI.add_reflection c ai now w).1 = 400)).
Proof.
  intros Hnone. split; [|split; [|split]].
  - intros payload ai now <-.
    unfold Boss.start_boss_battle, Boss._ensure_user_exists. by rewrite Hnone.
  - unfold Home.get_dashboard. by rewrite Hnone.
  - unfold TextAI.list_reflections. by rewrite Hnone.
  - intros c ai now Hc. unfold TextAI.add_reflection. rewrite Hc.
    destruct (Py.str_truthy (Some name)) eqn:Hname.
    + assert (name ≠ "") as Hne.
      { intros ->. discriminate Hname. }
      destruct (Py.str_truthy (TextAI.resolve_text c)) eqn:Htext.
      * destruct (TextAI.resolve_text c) as [text|]; [|done].
        rewrite Hnone. simpl. split; [done|]. split; [auto|]. split; [done|].
        intros [Habs|Habs]; [done|discriminate Habs].
      * simpl. split; [done|]. split; [auto|]. split; [|done].
        intros _ Habs. discriminate Habs.
    + simpl. split; [done|]. split; [auto|]. split; [|done]. intros Hne _.
      simpl in Hname. apply negb_false_iff, String.eqb_eq in Hname. done.
Qed.

(** C9 (as amended). A request whose required field cannot be resolved is
    answered 400 with the world untouched: POST /boss/answer without a user
    or without a choice, POST /text-ai/ without a user or without a text,
    and POST /boss/start asking for fewer than one question when the
    player's User row exists. Without that row the start request is
    answered 404, the world untouched as well. *)
Theorem unresolved_field_is_refused (w : World) :
  (∀ c now later,
      Py.str_truthy (Boss.resolve_username c) = false ∨ Boss.resolve_choice c = None →
      status_of (Boss.submit_answer c now later w).1 = 400
      ∧ (Boss.submit_answer c now later w).2 = w)
  ∧ (∀ c ai now,
       Py.str_truthy (TextAI.resolve_user c) = false
       ∨ Py.str_truthy (TextAI.resolve_text c) = false →
       status_of (TextAI.add_reflection c ai now w).1 = 400
       ∧ (TextAI.add_reflection c ai now w).2 = w)
  ∧ (∀ payload ai now requested,
       StartRequest.total_questions payload = Some requested →
       requested < 1 →
       (Boss.start_boss_battle payload ai now w).2 = w
       ∧ (is_Some (find_user (StartRequest.user payload) (db w)) →
          (Boss.start_boss_battle payload ai now w).1
            = HttpError 400 "total_questions must be >= 1")
       ∧ (find_user (StartRequest.user payload) (db w) = None →
          status_of (Boss.start_boss_battle payload ai now w).1 = 404)).
Proof.
  split; [|split].
  - intros c now later Hmiss. unfold Boss.submit_answer.
    destruct (Py.str_truthy (Boss.resolve_username c)) eqn:Hu; [|done].
    destruct Hmiss as [Habs| ->]; [discriminate Habs|].
    by destruct (Boss.resolve_username c).
  - intros c ai now Hmiss. unfold TextAI.add_reflection.
    destruct (Py.str_truthy (TextAI.resolve_user c)) eqn:Hu; [|done].
    destruct Hmiss as [Habs|Ht]; [discriminate Habs|]. rewrite Ht.
    by destruct (TextAI.resolve_user c).
  - intros payload ai now requested Hreq Hlow.
    unfold Boss.start_boss_battle, Boss._ensure_user_exists. rewrite Hreq.
    assert ((requested <? 1) = true) as -> by lia.
    destruct (find_user _ _) as [usr|]; simpl.
    + split; [done|]. split; [done|]. intros Habs. discriminate Habs.
    + split; [done|]. split; [|done]. by intros [? ?].
Qed.

End RefusalFacts.

Lemma start_refused_while_active_witness :
  (Boss.start_boss_battle (H := Sample.decimal) Sample.start_two Unconfigured
     (5 * Sample.second) Sample.playing).1
  = HttpError 409 "An active boss battle already exists.".
Proof.
  pose proof (start_refused_while_active (H := Sample.decimal) Sample.start_two
                Unconfigured (5 * Sample.second) Sample.playing Sample.midway eq_refl)
    as (_ & _ & P).
  apply (P Sample.alice 2); [reflexivity|reflexivity|discriminate].
Defined.

(** The claim of C7 fails for a start request that asks for no question: the
    player is told 400 rather than 409. *)
Lemma start_none_while_active_is_400 :
  ¬ (∀ (payload : StartRequest.t) (ai : ai_outcome) (now : Z) (w : World) (sess : Sess.t),
       _ACTIVE_SESSIONS w !! StartRequest.user payload = Some sess →
       status_of (Boss.start_boss_battle (H := Sample.decimal) payload ai now w).1 = 409).
Proof.
  intros Hall.
  pose proof (Hall SampleCalls.start_none Unconfigured (5 * Sample.second)
                Sample.playing Sample.midway eq_refl) as Heq.
  vm_compute in Heq. discriminate Heq.
Qed.

Lemma unknown_user_is_refused_witness :
  Home.get_dashboard "ghost" Sample.idle
    = (HttpError 404 "User not found. Please register first.", Sample.idle)
  ∧ TextAI.list_reflections "ghost" Sample.idle
    = (HttpError 404 "User not found. Please register first.", Sample.idle)
  ∧ (TextAI.add_reflection (H := Sample.decimal) SampleCalls.ghost_reflects
       Unconfigured 0 Sample.idle).1
    = HttpError 404 "User not found. Please register first."
  ∧ status_of (TextAI.add_reflection (H := Sample.decimal) SampleCalls.ghost_no_text
                 Unconfigured 0 Sample.idle).1 = 400.
Proof.
  pose proof (unknown_user_is_refused (H := Sample.decimal) "ghost" Sample.idle eq_refl)
    as (_ & P2 & P3 & P4).
  split; [exact P2|]. split; [exact P3|]. split.
  - destruct (P4 SampleCalls.ghost_reflects Unconfigured 0 eq_refl)
      as (_ & _ & P404 & _).
    apply P404; [discriminate|reflexivity].
  - destruct (P4 SampleCalls.ghost_no_text Unconfigured 0 eq_refl)
      as (_ & _ & _ & P400).
    apply P400. by right.
Defined.

(** The claim of C8 fails for POST /text-ai/ when the request carries no
    reflection text: the unregistered name is answered 400. *)
Lemma unknown_user_without_text_is_400 :
  ¬ (∀ (c : ReflectionCall.t) (ai : ai_outcome) (now : Z) (w : World) (name : string),
       find_user name (db w) = None →
       TextAI.resolve_user c = Some name →
       status_of (TextAI.add_reflection (H := Sample.decimal) c ai now w).1 = 404).
Proof.
  intros Hall.
  pose proof (Hall SampleCalls.ghost_no_text Unconfigured 0 Sample.idle "ghost"
                eq_refl eq_refl) as Heq.
  vm_compute in Heq. discriminate Heq.
Qed.

Lemma unresolved_field_is_refused_witness :
  status_of (Boss.submit_answer (H := Sample.decimal) SampleCalls.empty_answer
               Sample.second Sample.second Sample.playing).1 = 400
  ∧ (Boss.start_boss_battle (H := Sample.decimal) SampleCalls.start_none Unconfigured
       Sample.second Sample.playing).1
    = HttpError 400 "total_questions must be >= 1".
Proof.
  pose proof (unresolved_field_is_refused (H := Sample.decimal) Sample.playing)
    as (P1 & _ & P3).
  split.
  - apply (P1 SampleCalls.empty_answer Sample.second Sample.second). by left.
  - apply (P3 SampleCalls.start_none Unconfigured Sample.second 0 eq_refl eq_refl).
    by eexists.
Defined.

(** The claim of C9 fails for POST /boss/start when the player is not
    registered: a request for no question is answered 404. *)
Lemma start_none_by_unknown_user_is_404 :
  ¬ (∀ (payload : StartRequest.t) (ai : ai_outcome) (now : Z) (w : World) (requested : Z),
       StartRequest.total_questions payload = Some requested →
       requested < 1 →
       status_of (Boss.start_boss_battle (H := Sample.decimal) payload ai now w).1 = 400).
Proof.
  intros Hall.
  pose proof (Hall SampleCalls.ghost_start_none Unconfigured 0 Sample.idle 0
                eq_refl eq_refl) as Heq.
  vm_compute in Heq. discriminate Heq.
Qed.

(** * Further properties of the routers *)

(** ** The session clock *)

(** X1. In the range where the double-precision arithmetic is exact, the
    time a session has left is never negative and only runs down: at a later
    reading it is no larger, so a session that has timed out stays so. Once
    the clock is past the start it is at most max(0, limit), hence at most
    the limit when the limit is not negative. *)
Theorem time_remaining_runs_down (now now' : Z) (sess : Sess.t) :
  now ≤ now' →
  in_double_range now sess →
  in_double_range now' sess →
  0 ≤ Boss._time_remaining now' sess
  ∧ Boss._time_remaining now' sess ≤ Boss._time_remaining now sess
  ∧ (Sess.started_at sess ≤ now →
     Boss._time_remaining now sess ≤ Z.max 0 (Sess.time_limit_seconds sess))
  ∧ (Sess.started_at sess ≤ now → 0 ≤ Sess.time_limit_seconds sess →
     Boss._time_remaining now sess ≤ Sess.time_limit_seconds sess)
  ∧ (Boss._time_remaining now sess = 0 → Boss._time_remaining now' sess = 0).
Proof.
  intros Hle _ _.
  assert (Hmono : Boss._time_remaining now' sess ≤ Boss._time_remaining now sess).
  { unfold Boss._time_remaining. apply Z.max_le_compat_l.
    apply Z.quot_le_mono; lia. }
  assert (Hpos : ∀ t, 0 ≤ Boss._time_remaining t sess).
  { intros t. unfold Boss._time_remaining. lia. }
  assert (Hcap : Sess.started_at sess ≤ now →
                 Boss._time_remaining now sess ≤ Z.max 0 (Sess.time_limit_seconds sess)).
  { intros Hstart. unfold Boss._time_remaining.
    apply Z.max_le_compat_l.
    transitivity (Z.quot (Sess.time_limit_seconds sess * 1000000) 1000000).
    - apply Z.quot_le_mono; lia.
    - rewrite Z.quot_mul by lia. lia. }
  split; [apply Hpos|]. split; [exact Hmono|]. split; [exact Hcap|]. split.
  - intros Hstart Hlimit. pose proof (Hcap Hstart). lia.
  - intros Hz. pose proof (Hpos now'). lia.
Qed.

Lemma time_remaining_runs_down_witness :
  Boss._time_remaining (200 * Sample.second) Sample.midway
  ≤ Boss._time_remaining (20 * Sample.second) Sample.midway.
Proof.
  assert (∀ t, 0 ≤ t ≤ 200 * Sample.second → in_double_range t Sample.midway) as Hr.
  { intros t Ht. unfold in_double_range, Sample.midway, Sample.second in *.
    cbn [Sess.time_limit_seconds Sess.started_at].
    change (2 ^ 31) with 2147483648. lia. }
  exact (proj1 (proj2 (time_remaining_runs_down (20 * Sample.second)
                         (200 * Sample.second) Sample.midway
                         ltac:(vm_compute; discriminate)
                         (Hr (20 * Sample.second) ltac:(unfold Sample.second; lia))
                         (Hr (200 * Sample.second) ltac:(unfold Sample.second; lia))))).
Defined.

(** ** Ending a session *)

(** X2. Ending a session a second time does nothing: the body is the
    "Session closed." message and the world, the player's XP included,
    stays as the first ending left it. *)
Theorem end_session_twice (user s1 s2 : string) (t1 t2 : Z) (w : World) :
  Boss._end_session user s2 t2 (Boss._end_session user s1 t1 w).2
  = (Boss.SessionClosed, (Boss._end_session user s1 t1 w).2).
Proof.
  pose proof (end_session_sessions user s1 t1 w) as Hdel.
  unfold Boss._end_session at 1.
  rewrite Hdel, lookup_delete_eq. reflexivity.
Qed.

(** ** The quiz generator *)

Section GeneratorFacts.
Context `{PyIntParser}.

Lemma clean_entry_valid (fields : list (string * Py.json)) (q : Question.t) :
  Boss.clean_entry fields = Some q →
  Py.truthy (Question.question q) = true
  ∧ (2 ≤ length (Question.choices q) ≤ 4)%nat.
Proof.
  unfold Boss.clean_entry.
  destruct (Py.get_or_null "choices" fields) as [| | | | |choices|]; try done.
  destruct (Py.truthy (Py.get_or_null "question" fields)) eqn:Hq; [|done].
  destruct (2 <=? Z.of_nat (length choices)) eqn:Hlen; [|done].
  simpl. intros [= <-]. simpl. split; [done|].
  unfold Py.slice_to. simpl. rewrite length_take. lia.
Qed.

Lemma clean_loop_valid (total : Z) (qs : list Py.json) (cleaned : list Question.t) :
  Forall valid_question cleaned →
  Forall valid_question (Boss.clean_loop total qs cleaned).
Proof.
  revert cleaned. induction qs as [|q qs IH]; intros cleaned Hc; simpl; [done|].
  destruct q; try by apply IH.
  destruct (Boss.clean_entry fields) as [c|] eqn:Hentry.
  - assert (Forall valid_question (cleaned ++ [c])) as Hc'.
    { apply Forall_app. split; [done|]. constructor; [|done].
      by apply (clean_entry_valid fields). }
    destruct (_ >=? _); [done|by apply IH].
  - destruct (_ >=? _); [done|by apply IH].
Qed.

Lemma clean_loop_length (total : Z) (qs : list Py.json) (cleaned : list Question.t) :
  Z.of_nat (length cleaned) < total →
  Z.of_nat (length (Boss.clean_loop total qs cleaned)) ≤ total.
Proof.
  revert cleaned. induction qs as [|q qs IH]; intros cleaned Hc; simpl; [lia|].
  destruct q; try by apply IH.
  destruct (Boss.clean_entry fields) as [c|].
  - destruct (Z.of_nat (length (cleaned ++ [c])) >=? total) eqn:Hstop.
    + rewrite length_app in *. simpl in *. lia.
    + apply IH. lia.
  - destruct (Z.of_nat (length cleaned) >=? total) eqn:Hstop; [lia|by apply IH].
Qed.

Lemma bank_valid : Forall valid_question Boss._QUESTIONS.
Proof. repeat constructor; simpl; lia. Qed.

Lemma slice_to_sublist {A} (n : Z) (l : list A) (P : A → Prop) :
  Forall P l → Forall P (Py.slice_to n l).
Proof. intros Hl. unfold Py.slice_to. destruct (n <? 0); by apply Forall_take. Qed.

Lemma slice_to_length {A} (n : Z) (l : list A) :
  1 ≤ n → l ≠ [] →
  1 ≤ Z.of_nat (length (Py.slice_to n l)) ≤ n.
Proof.
  intros Hn Hl. unfold Py.slice_to.
  assert ((n <? 0) = false) as -> by lia.
  rewrite length_take. destruct l; [done|]. simpl. lia.
Qed.

Lemma generated_quiz_valid (total : Z) (ai : ai_outcome) :
  1 ≤ total →
  1 ≤ Z.of_nat (length (Boss._generate_ai_questions total ai)) ≤ total
  ∧ Forall valid_question (Boss._generate_ai_questions total ai).
Proof.
  intros Htotal.
  assert (Hbank : 1 ≤ Z.of_nat (length (Py.slice_to total Boss._QUESTIONS)) ≤ total
                  ∧ Forall valid_question (Py.slice_to total Boss._QUESTIONS)).
  { split; [by apply slice_to_length|]. apply slice_to_sublist, bank_valid. }
  unfold Boss._generate_ai_questions.
  destruct ai as [| |data]; try exact Hbank.
  set (questions := match data with
                    | Py.JObj fields =>
                        match Py.get "questions" fields with
                        | Some v => v
                        | None => Py.JList []
                        end
                    | _ => Py.JList []
                    end).
  destruct questions as [| | | | |qs|]; try exact Hbank.
  pose proof (clean_loop_valid total qs [] ltac:(constructor)) as Hvalid.
  pose proof (clean_loop_length total qs [] ltac:(simpl; lia)) as Hlen.
  destruct (Boss.clean_loop total qs []) as [|c cleaned]; [exact Hbank|].
  split; [by apply slice_to_length|by apply slice_to_sublist].
Qed.

(** X3. Whatever the chat-completion call did, the quiz generated for a
    count of at least one holds at least one question and at most that
    many, and each question has a non-empty text and between two and four
    choices. *)
Theorem generated_quiz_shape (total : Z) (ai : ai_outcome) :
  1 ≤ total →
  1 ≤ Z.of_nat (length (Boss._generate_ai_questions total ai)) ≤ total
  ∧ ∀ q, q ∈ Boss._generate_ai_questions total ai →
      Py.truthy (Question.question q) = true
      ∧ (2 ≤ length (Question.choices q) ≤ 4)%nat.
Proof.
  intros Htotal. destruct (generated_quiz_valid total ai Htotal) as [Hlen Hall].
  split; [exact Hlen|].
  intros q Hq. by apply (proj1 (Forall_forall _ _) Hall).
Qed.

(** X4. POST /boss/start never fails on the first question of the quiz:
    the only exception that escapes it is the TypeError of comparing a null
    total_questions with 1, and then nothing has been stored. *)
Theorem start_escapes_only_on_null_count (payload : StartRequest.t)
    (ai : ai_outcome) (now : Z) (w : World) (e : exn) :
  (Boss.start_boss_battle payload ai now w).1 = Crash e →
  e = TypeError
  ∧ StartRequest.total_questions payload = None
  ∧ (Boss.start_boss_battle payload ai now w).2 = w.
Proof.
  unfold Boss.start_boss_battle, Boss._ensure_user_exists.
  destruct (find_user _ _); [|done].
  destruct (StartRequest.total_questions payload) as [requested|];
    [|by intros [= <-]].
  destruct (requested <? 1) eqn:Hreq; [done|].
  destruct (bool_decide _); [done|].
  set (total := if negb (requested =? 0) then _ else _).
  assert (1 ≤ total) as Htotal.
  { subst total. change (Z.of_nat (length Boss._QUESTIONS)) with 5.
    destruct (requested =? 0); simpl; lia. }
  destruct (generated_quiz_valid total ai Htotal) as [[Hlen _] _].
  destruct (Boss._generate_ai_questions total ai) as [|q qs]; [simpl in Hlen; lia|].
  done.
Qed.

End GeneratorFacts.

Lemma generated_quiz_shape_witness :
  1 ≤ Z.of_nat (length (Boss._generate_ai_questions (H := Sample.decimal) 2
                          Sample.one_question_reply)) ≤ 2.
Proof.
  exact (proj1 (generated_quiz_shape (H := Sample.decimal) 2 Sample.one_question_reply
                  ltac:(vm_compute; discriminate))).
Defined.

Lemma start_escapes_only_on_null_count_witness :
  StartRequest.total_questions SampleRuns.start_null = None
  ∧ (Boss.start_boss_battle (H := Sample.decimal) SampleRuns.start_null Unconfigured 0
       Sample.idle).2 = Sample.idle.
Proof.
  exact (proj2 (start_escapes_only_on_null_count (H := Sample.decimal)
                  SampleRuns.start_null Unconfigured 0 Sample.idle TypeError eq_refl)).
Defined.

(** ** What a request changes *)

Section EffectFacts.
Context `{PyIntParser}.

Lemma answer_player (c : AnswerCall.t) (username : string) :
  (if Py.str_truthy (Boss.resolve_username c) then Boss.resolve_username c else None)
  = Some username →
  Boss.resolve_username c = Some username.
Proof. by destruct (Py.str_truthy _). Qed.

Lemma handle_effect (r : Boss.call) (w : World) : Play.effect r w (Boss.handle r w).
Proof.
  destruct r as [payload ai now|user now later|c now later|user now later|user now];
    simpl.
  - unfold Boss.start_boss_battle, Boss._ensure_user_exists.
    destruct (find_user _ _); [|by constructor].
    destruct (StartRequest.total_questions payload) as [requested|]; [|by constructor].
    destruct (requested <? 1); [by constructor|].
    destruct (bool_decide _); [by constructor|].
    destruct (Py.index _ 0); by apply Play.effect_update.
  - unfold Boss.get_current_question, Boss._get_session.
    destruct (_ACTIVE_SESSIONS w !! user) as [sess|] eqn:Hs; [|by constructor].
    rewrite !(ended_closing _ _ _ _ _ Hs).
    destruct (_ =? 0); [by apply Play.effect_close|].
    destruct (_ <=? 0); [by apply Play.effect_close|].
    destruct (_ >=? _); [by apply Play.effect_close|].
    destruct (Py.index _ _); by constructor.
  - unfold Boss.submit_answer.
    destruct (if Py.str_truthy _ then _ else _) as [username|] eqn:Hname;
      [|by constructor].
    apply answer_player in Hname.
    destruct (Boss.resolve_choice c) as [choice|]; [|by constructor].
    unfold Boss._get_session.
    destruct (_ACTIVE_SESSIONS w !! username) as [sess|] eqn:Hs; [|by constructor].
    rewrite !(ended_closing _ _ _ _ _ Hs).
    destruct (_ =? 0); [by apply Play.effect_close|].
    destruct (_ >=? _); [by apply Play.effect_close|].
    destruct (Py.index _ _) as [q|]; [|by constructor].
    cbv zeta.
    set (sess' := Boss.record_answer (choice =? Question.answer_idx q) sess).
    set (w' := mkWorld (db w) (<[username:=sess']> (_ACTIVE_SESSIONS w))).
    assert (Hs' : _ACTIVE_SESSIONS w' !! username = Some sess') by apply lookup_insert_eq.
    rewrite !(ended_closing _ _ _ _ _ Hs'). subst w' sess'.
    destruct (_ <=? 0); [by apply Play.effect_close_updated|].
    destruct (_ >=? _); [by apply Play.effect_close_updated|].
    destruct (Py.index _ _); by apply Play.effect_update.
  - unfold Boss.get_status, Boss._get_session.
    destruct (_ACTIVE_SESSIONS w !! user) as [sess|] eqn:Hs; [|by constructor].
    cbv zeta. rewrite !(ended_closing _ _ _ _ _ Hs).
    destruct (_ =? 0); [by apply Play.effect_close|by constructor].
  - unfold Boss.forfeit, Boss._get_session.
    destruct (_ACTIVE_SESSIONS w !! user) as [sess|] eqn:Hs; [|by constructor].
    rewrite !(ended_closing _ _ _ _ _ Hs). by apply Play.effect_close.
Qed.

(** X5. A request under /boss touches the session of its own player only:
    the session of every other player is the same dict before and after. *)
Theorem other_players_untouched (r : Boss.call) (w : World) (other : string) :
  Play.player_of r ≠ Some other →
  _ACTIVE_SESSIONS (Boss.handle r w).2 !! other = _ACTIVE_SESSIONS w !! other.
Proof.
  intros Hother.
  destruct (handle_effect r w)
    as [o _|o user s _ Hp|user status t sess Hp Hs|user status t b prev Hp Hs].
  - done.
  - simpl. apply lookup_insert_ne. congruence.
  - rewrite (closing_discards _ _ _ _ _ Hs). apply lookup_delete_ne. congruence.
  - erewrite closing_discards by apply lookup_insert_eq. simpl.
    rewrite lookup_delete_ne, lookup_insert_ne by congruence. done.
Qed.

(** X6. A request under /boss changes the store only by ending a session,
    and then in one way: the body is the ended-session summary, one
    BossBattle row with the same score and an xp_reward of 20 times the
    score is appended, reflections and study sessions stay, and no User row
    is added, dropped or renamed. With any other body the store is as it
    was. *)
Theorem store_changes_only_by_ending (r : Boss.call) (w : World) :
  (db (Boss.handle r w).2 = db w ∧ Play.not_ended (Boss.handle r w).1)
  ∨ (∃ user status t sess,
       Play.player_of r = Some user
       ∧ (Boss.handle r w).1
         = Ok (Boss.Ended status (Sess.score sess) (20 * Sess.score sess)
                 (Sess.total_questions sess) (Sess.lives sess))
       ∧ boss_battles (db (Boss.handle r w).2)
         = boss_battles (db w) ++
           [BossBattle.mk user t (Sess.score sess) (Sess.total_questions sess)
              (20 * Sess.score sess) (Sess.difficulty sess) true]
       ∧ reflections (db (Boss.handle r w).2) = reflections (db w)
       ∧ progress (db (Boss.handle r w).2) = progress (db w)
       ∧ map User.username (users (db (Boss.handle r w).2))
         = map User.username (users (db w))).
Proof.
  assert (Hnames : ∀ user xp l,
             map User.username
               (update_first (λ u, String.eqb (User.username u) user)
                  (User.add_xp xp) l)
             = map User.username l).
  { intros user xp l. induction l as [|x l IH]; simpl; [done|].
    destruct (String.eqb (User.username x) user); simpl; [done|by rewrite IH]. }
  assert (Hclose : ∀ user status t w0 sess,
             Play.player_of r = Some user →
             db w0 = db w →
             _ACTIVE_SESSIONS w0 !! user = Some sess →
             Boss.handle r w = Boss.closing user status t w0 sess →
             ∃ user status t sess,
               Play.player_of r = Some user
               ∧ (Boss.handle r w).1
                 = Ok (Boss.Ended status (Sess.score sess) (20 * Sess.score sess)
                         (Sess.total_questions sess) (Sess.lives sess))
               ∧ boss_battles (db (Boss.handle r w).2)
                 = boss_battles (db w) ++
                   [BossBattle.mk user t (Sess.score sess) (Sess.total_questions sess)
                      (20 * Sess.score sess) (Sess.difficulty sess) true]
               ∧ reflections (db (Boss.handle r w).2) = reflections (db w)
               ∧ progress (db (Boss.handle r w).2) = progress (db w)
               ∧ map User.username (users (db (Boss.handle r w).2))
                 = map User.username (users (db w))).
  { intros user status t w0 sess Hp Hdb Hs ->.
    exists user, status, t, sess. split; [done|]. split; [done|].
    unfold Boss.closing, Boss._end_session. rewrite Hs, Hdb. simpl.
    replace (Sess.score sess * 20) with (20 * Sess.score sess) by lia.
    split; [done|]. split; [done|]. split; [done|].
    destruct (find_user user (db w)); [apply Hnames|done]. }
  pose proof (handle_effect r w) as Heff.
  inversion Heff
    as [o Ho Heq|o user s Ho Hp Heq|user status t sess Hp Hs Heq
       |user status t b prev Hp Hs Heq].
  - by left.
  - by left.
  - right. rewrite Heq. by eapply Hclose.
  - right. rewrite Heq.
    apply (Hclose user status t
             (mkWorld (db w)
                (<[user := Boss.record_answer b prev]> (_ACTIVE_SESSIONS w)))
             (Boss.record_answer b prev) Hp eq_refl);
      [apply lookup_insert_eq|done].
Qed.

(** X7. The two GET routes never edit a session. For a player with a
    session, GET /boss/status ends it as a timeout exactly when no whole
    second is left and otherwise answers with the status and leaves the
    world as it was; GET /boss/question ends it exactly when no whole second
    is left (timeout), or else no life is left (out_of_lives), or else the
    index has reached total_questions (completed), and otherwise leaves the
    world as it was. For a player without a session both answer 404 and
    change nothing. *)
Theorem get_routes_only_read_or_end (user : string) (now later : Z) (w : World) :
  (_ACTIVE_SESSIONS w !! user = None →
   Boss.get_status user now later w
     = (HttpError 404 "No active boss battle. Start one first.", w)
   ∧ Boss.get_current_question user now later w
     = (HttpError 404 "No active boss battle. Start one first.", w))
  ∧ (∀ sess,
       _ACTIVE_SESSIONS w !! user = Some sess →
       (Boss._time_remaining now sess = 0 →
        Boss.get_status user now later w = Boss.closing user "timeout" later w sess
        ∧ Boss.get_current_question user now later w
          = Boss.closing user "timeout" later w sess)
       ∧ (Boss._time_remaining now sess ≠ 0 →
          Boss.get_status user now later w
          = (Ok (Boss.Status (Sess.lives sess) (Sess.score sess)
                   (Z.min (Sess.index sess + 1) (Sess.total_questions sess))
                   (Sess.total_questions sess) (Boss._time_remaining now sess)),
             w))
       ∧ (Boss._time_remaining now sess ≠ 0 → Sess.lives sess ≤ 0 →
          Boss.get_current_question user now later w
          = Boss.closing user "out_of_lives" later w sess)
       ∧ (Boss._time_remaining now sess ≠ 0 → 0 < Sess.lives sess →
          Sess.total_questions sess ≤ Sess.index sess →
          Boss.get_current_question user now later w
          = Boss.closing user "completed" later w sess)
       ∧ (Boss._time_remaining now sess ≠ 0 → 0 < Sess.lives sess →
          Sess.index sess < Sess.total_questions sess →
          (Boss.get_current_question user now later w).2 = w
          ∧ Play.not_ended (Boss.get_current_question user now later w).1)).
Proof.
  split.
  - intros Hs. unfold Boss.get_status, Boss.get_current_question, Boss._get_session.
    by rewrite Hs.
  - intros sess Hs.
    unfold Boss.get_status, Boss.get_current_question, Boss._get_session.
    rewrite Hs. cbv zeta. rewrite !(ended_closing _ _ _ _ _ Hs).
    split; [by intros ->|].
    split; [by intros ->%Z.eqb_neq|].
    split.
    { intros ->%Z.eqb_neq Hl. by assert ((Sess.lives sess <=? 0) = true) as -> by lia. }
    split.
    { intros ->%Z.eqb_neq Hl Hi.
      assert ((Sess.lives sess <=? 0) = false) as -> by lia.
      by assert ((Sess.index sess >=? Sess.total_questions sess) = true) as -> by lia. }
    intros ->%Z.eqb_neq Hl Hi.
    assert ((Sess.lives sess <=? 0) = false) as -> by lia.
    assert ((Sess.index sess >=? Sess.total_questions sess) = false) as -> by lia.
    by destruct (Py.index _ _).
Qed.

End EffectFacts.

Lemma other_players_untouched_witness :
  _ACTIVE_SESSIONS
    (Boss.handle (H := Sample.decimal) (Boss.Forfeit "bob" 0) Sample.playing).2
    !! "alice"
  = _ACTIVE_SESSIONS Sample.playing !! "alice".
Proof.
  apply (other_players_untouched (H := Sample.decimal)). discriminate.
Defined.

Lemma get_routes_only_read_or_end_witness :
  Boss.get_status "alice" (200 * Sample.second) (200 * Sample.second) Sample.playing
  = Boss.closing "alice" "timeout" (200 * Sample.second) Sample.playing Sample.midway
  ∧ (Boss.get_current_question "alice" Sample.second Sample.second Sample.playing).2
    = Sample.playing.
Proof.
  destruct (get_routes_only_read_or_end "alice" (200 * Sample.second)
              (200 * Sample.second) Sample.playing) as (_ & P).
  destruct (P Sample.midway eq_refl) as (Pout & _).
  split; [apply Pout; reflexivity|].
  destruct (get_routes_only_read_or_end "alice" Sample.second Sample.second
              Sample.playing) as (_ & Q).
  destruct (Q Sample.midway eq_refl) as (_ & _ & _ & _ & Qin).
  apply Qin; by vm_compute.
Defined.

(** ** Complete quizzes *)

Lemma index_in_range {A} (l : list A) (i : Z) :
  0 ≤ i < Z.of_nat (length l) → is_Some (Py.index l i).
Proof.
  intros Hi. unfold Py.index. assert ((0 <=? i) = true) as -> by lia.
  apply lookup_lt_is_Some. lia.
Qed.

Lemma record_answer_complete (b : bool) (s : Sess.t) :
  Play.quiz_complete s → Play.quiz_complete (Boss.record_answer b s).
Proof. unfold Play.quiz_complete. destruct b; simpl; lia. Qed.

Lemma quizzes_complete_delete (user : string) (w w' : World) :
  Play.quizzes_complete w →
  _ACTIVE_SESSIONS w' = delete user (_ACTIVE_SESSIONS w) →
  Play.quizzes_complete w'.
Proof.
  intros Hok Heq k s. rewrite Heq. intros [_ Hk]%lookup_delete_Some. by eapply Hok.
Qed.

Lemma quizzes_complete_insert (user : string) (s : Sess.t) (w w' : World) :
  Play.quizzes_complete w →
  Play.quiz_complete s →
  _ACTIVE_SESSIONS w' = <[user := s]> (_ACTIVE_SESSIONS w) →
  Play.quizzes_complete w'.
Proof.
  intros Hok Hs Heq k s'. rewrite Heq.
  intros [[_ <-]|[_ Hk]]%lookup_insert_Some; [done|]. by eapply Hok.
Qed.

Section CompleteFacts.
Context `{PyIntParser}.

Lemma offline_quiz_complete (requested : Z) (ai : ai_outcome) :
  1 ≤ requested →
  (∀ data, ai ≠ Reply data) →
  Z.of_nat (length (Boss._generate_ai_questions (Z.min requested 5) ai))
  = Z.min requested 5.
Proof.
  intros Hreq Hai.
  assert (Boss._generate_ai_questions (Z.min requested 5) ai
          = Py.slice_to (Z.min requested 5) Boss._QUESTIONS) as ->.
  { destruct ai; [done|done|]. by destruct (Hai data). }
  unfold Py.slice_to. assert ((Z.min requested 5 <? 0) = false) as -> by lia.
  rewrite length_take. simpl. lia.
Qed.

(** How a session leaves [submit_answer] when its quiz is complete. *)
Lemma answer_on_complete_quiz (c : AnswerCall.t) (now later : Z) (w : World)
    (user : string) (choice : Z) (sess : Sess.t) :
  Boss.names c user choice →
  _ACTIVE_SESSIONS w !! user = Some sess →
  Play.quiz_complete sess →
  (∃ body w',
      Boss.submit_answer c now later w = (Ok body, w')
      ∧ _ACTIVE_SESSIONS w' = delete user (_ACTIVE_SESSIONS w))
  ∨ (∃ body b,
       Sess.index sess + 1 < Sess.total_questions sess
       ∧ Boss.submit_answer c now later w
         = (Ok body,
            mkWorld (db w)
              (<[user := Boss.record_answer b sess]> (_ACTIVE_SESSIONS w)))).
Proof.
  intros Hn Hs [Hpos Hlen].
  rewrite (submit_answer_session c now later w user choice sess Hn Hs).
  assert (Hend : ∀ status,
             ∃ body w', Boss.closing user status later w sess = (Ok body, w')
                        ∧ _ACTIVE_SESSIONS w' = delete user (_ACTIVE_SESSIONS w)).
  { intros status. eexists _, _. split; [reflexivity|]. apply (closing_discards _ _ _ _ _ Hs). }
  destruct (_ =? 0); [left; by apply Hend|].
  destruct (Sess.index sess >=? Sess.total_questions sess) eqn:Hidx;
    [left; by apply Hend|].
  destruct (index_in_range (Sess.questions sess) (Sess.index sess) ltac:(lia))
    as [q ->].
  cbv zeta.
  set (sess' := Boss.record_answer (choice =? Question.answer_idx q) sess).
  set (w1 := mkWorld (db w) (<[user:=sess']> (_ACTIVE_SESSIONS w))).
  assert (Hs' : _ACTIVE_SESSIONS w1 !! user = Some sess') by apply lookup_insert_eq.
  assert (Hend' : ∀ status,
             ∃ body w', Boss.closing user status later w1 sess' = (Ok body, w')
                        ∧ _ACTIVE_SESSIONS w' = delete user (_ACTIVE_SESSIONS w)).
  { intros status. eexists _, _. split; [reflexivity|].
    etrans; [exact (closing_discards user status later w1 sess' Hs')|].
    apply delete_insert_eq. }
  destruct (_ <=? 0); [left; by apply Hend'|].
  destruct (Sess.index sess' >=? Sess.total_questions sess') eqn:Hidx';
    [left; by apply Hend'|].
  assert (Hi' : Sess.index sess' = Sess.index sess + 1) by apply record_answer_index.
  destruct (record_answer_frame (choice =? Question.answer_idx q) sess)
    as (Ht' & Hq' & _).
  fold sess' in Ht', Hq'.
  destruct (index_in_range (Sess.questions sess') (Sess.index sess')
              ltac:(rewrite Hq'; lia)) as [next_q ->].
  right. eexists _, _. split; [lia|reflexivity].
Qed.

(** A POST /boss/answer either is turned away before it touches anything,
    or names a player who has a session. *)
Lemma answer_cases (c : AnswerCall.t) (now later : Z) (w : World) :
  ((Boss.submit_answer c now later w).2 = w
   ∧ ∃ code detail, (Boss.submit_answer c now later w).1 = HttpError code detail)
  ∨ (∃ user choice sess,
       Boss.names c user choice ∧ _ACTIVE_SESSIONS w !! user = Some sess).
Proof.
  destruct (Boss.resolve_username c) as [user|] eqn:Hu.
  2:{ left. unfold Boss.submit_answer. rewrite Hu. simpl. by eauto. }
  destruct (String.eqb user "") eqn:Hempty.
  { left. unfold Boss.submit_answer. rewrite Hu. simpl. rewrite Hempty. simpl.
    by eauto. }
  apply String.eqb_neq in Hempty.
  destruct (Boss.resolve_choice c) as [choice|] eqn:Hc.
  2:{ left. unfold Boss.submit_answer.
      rewrite Hu, Hc, (str_truthy_nonempty user Hempty). simpl. by eauto. }
  destruct (_ACTIVE_SESSIONS w !! user) as [sess|] eqn:Hs.
  - right. by exists user, choice, sess.
  - left. unfold Boss.submit_answer, Boss._get_session.
    rewrite Hu, Hc, (str_truthy_nonempty user Hempty), Hs. simpl. by eauto.
Qed.

(** X8. As long as no quiz comes from a chat-completion reply, every stored
    session holds a question for each index below its total_questions, and
    no request under /boss ends in an unhandled exception, a POST
    /boss/start with a null total_questions apart. *)
Theorem complete_quizzes_never_fail (r : Boss.call) (w : World) :
  Play.quizzes_complete w →
  Play.offline r →
  Play.quizzes_complete (Boss.handle r w).2
  ∧ ∀ e, (Boss.handle r w).1 = Crash e →
      e = TypeError
      ∧ ∃ payload ai now,
          r = Boss.Start payload ai now
          ∧ StartRequest.total_questions payload = None.
Proof.
  intros Hok Hoff.
  destruct r as [payload ai now|user now later|c now later|user now later|user now];
    simpl.
  - unfold Boss.start_boss_battle, Boss._ensure_user_exists.
    destruct (find_user _ _); [|done].
    destruct (StartRequest.total_questions payload) as [requested|] eqn:Hreq.
    2:{ split; [done|]. intros e [= <-]. split; [done|]. by eauto. }
    destruct (requested <? 1) eqn:Hone; [done|].
    destruct (bool_decide _); [done|].
    assert ((requested =? 0) = false) as -> by lia.
    change (Z.of_nat (length Boss._QUESTIONS)) with 5. simpl negb. cbv iota.
    assert (∀ data, ai ≠ Reply data) as Hai.
    { intros data ->. exact Hoff. }
    pose proof (offline_quiz_complete requested ai ltac:(lia) Hai) as Hlen.
    set (qs := Boss._generate_ai_questions (Z.min requested 5) ai) in *.
    destruct (index_in_range qs 0 ltac:(lia)) as [q ->]. simpl.
    split; [|done].
    eapply quizzes_complete_insert; [exact Hok| |done].
    split; simpl; [lia|done].
  - unfold Boss.get_current_question, Boss._get_session.
    destruct (_ACTIVE_SESSIONS w !! user) as [sess|] eqn:Hs; [|done].
    rewrite !(ended_closing _ _ _ _ _ Hs).
    assert (Hend : ∀ status,
               Play.quizzes_complete (Boss.closing user status later w sess).2).
    { intros status. eapply quizzes_complete_delete; [exact Hok|].
      by apply closing_discards. }
    destruct (_ =? 0); [by split|]. destruct (_ <=? 0); [by split|].
    destruct (Sess.index sess >=? Sess.total_questions sess) eqn:Hidx; [by split|].
    destruct (Hok user sess Hs) as [Hpos Hlen].
    by destruct (index_in_range (Sess.questions sess) (Sess.index sess)
                   ltac:(lia)) as [q ->].
  - destruct (answer_cases c now later w)
      as [[Hsame (code & d & Herr)]|(user & choice & sess & Hn & Hs)].
    { rewrite Hsame, Herr. by split. }
    destruct (answer_on_complete_quiz c now later w user choice sess Hn Hs
                (Hok user sess Hs)) as [(body & w' & -> & Hdel)|(body & b & _ & ->)].
    + split; [|done]. by eapply quizzes_complete_delete.
    + split; [|done].
      eapply quizzes_complete_insert; [exact Hok| |done].
      apply record_answer_complete. by apply Hok with user.
  - unfold Boss.get_status, Boss._get_session.
    destruct (_ACTIVE_SESSIONS w !! user) as [sess|] eqn:Hs; [|done].
    cbv zeta. rewrite !(ended_closing _ _ _ _ _ Hs).
    destruct (_ =? 0); [|done]. split; [|done].
    eapply quizzes_complete_delete; [exact Hok|]. by apply closing_discards.
  - unfold Boss.forfeit, Boss._get_session.
    destruct (_ACTIVE_SESSIONS w !! user) as [sess|] eqn:Hs; [|done].
    rewrite !(ended_closing _ _ _ _ _ Hs). split; [|done].
    eapply quizzes_complete_delete; [exact Hok|]. by apply closing_discards.
Qed.

End CompleteFacts.

Lemma playing_is_complete : Play.quizzes_complete Sample.playing.
Proof.
  intros user s. unfold Sample.playing. simpl.
  intros [_ <-]%lookup_singleton_Some. split; [by vm_compute|reflexivity].
Qed.

Lemma complete_quizzes_never_fail_witness :
  Play.quizzes_complete
    (Boss.handle (H := Sample.decimal)
       (Boss.Answer (Sample.answer 1) Sample.second Sample.second) Sample.playing).2.
Proof.
  exact (proj1 (complete_quizzes_never_fail (H := Sample.decimal)
                  (Boss.Answer (Sample.answer 1) Sample.second Sample.second)
                  Sample.playing playing_is_complete I)).
Defined.

(** ** How a game ends *)

Section GameFacts.
Context `{PyIntParser}.

Lemma answer_all_gone (turns : list Play.turn) (w : World) (user : string) :
  _ACTIVE_SESSIONS w !! user = None →
  Forall (λ t, ∃ choice, Boss.names (Play.request t) user choice) turns →
  _ACTIVE_SESSIONS (Play.answer_all turns w) !! user = None.
Proof.
  intros Hgone Hall. revert w Hgone.
  induction Hall as [|t rest (choice & Hu & _ & _) _ IH]; intros w Hgone; simpl; [done|].
  destruct (routes_need_a_session user w Hgone) as (_ & _ & _ & Hans).
  destruct (Hans (Play.request t) (Play.at_check t) (Play.at_end t) Hu) as [_ ->].
  by apply IH.
Qed.

(** X9. A game cannot go on for ever: once a player whose quiz is complete
    has sent as many answers as questions were left (at least one), the
    session is gone, whatever was answered and whenever. *)
Theorem quiz_is_over_after_enough_answers (turns : list Play.turn) (w : World)
    (user : string) (sess : Sess.t) :
  Play.quiz_complete sess →
  _ACTIVE_SESSIONS w !! user = Some sess →
  Forall (λ t, ∃ choice, Boss.names (Play.request t) user choice) turns →
  (1 ≤ length turns)%nat →
  Sess.total_questions sess - Sess.index sess ≤ Z.of_nat (length turns) →
  _ACTIVE_SESSIONS (Play.answer_all turns w) !! user = None.
Proof.
  intros Hc Hs Hall. revert w sess Hc Hs.
  induction Hall as [|t rest (choice & Hn) Hrest IH]; intros w sess Hc Hs Hone Hleft;
    simpl in *; [lia|].
  destruct (answer_on_complete_quiz (Play.request t) (Play.at_check t) (Play.at_end t)
              w user choice sess Hn Hs Hc)
    as [(body & w' & -> & Hdel)|(body & b & Hmore & ->)]; simpl.
  - apply answer_all_gone; [|done]. rewrite Hdel. apply lookup_delete_eq.
  - apply (IH _ (Boss.record_answer b sess)).
    + by apply record_answer_complete.
    + apply lookup_insert_eq.
    + lia.
    + rewrite record_answer_index.
      destruct (record_answer_frame b sess) as (-> & _). lia.
Qed.

Lemma closing_summary (user st : string) (t : Z) (w0 : World) (s : Sess.t)
    (status : string) (score xp total lives : Z) :
  (Boss.closing user st t w0 s).1 = Ok (Boss.Ended status score xp total lives) →
  status = st ∧ score = Sess.score s ∧ xp = 20 * Sess.score s
  ∧ total = Sess.total_questions s ∧ lives = Sess.lives s.
Proof. by intros [= <- <- <- <- <-]. Qed.

Ltac summary_done :=
  repeat split; try lia; auto;
  try (intros ?; first [discriminate | lia]).

(** X10. When every stored session is within its bounds, the summary a
    request returns for an ended session is consistent: xp_reward is 20
    times the score, 0 <= score <= total_questions <= 5, between 0 and 3
    lives are left, the status is one of timeout, out_of_lives, completed
    and forfeit, an out_of_lives game has no life left and a completed one
    has at least one. *)
Theorem ended_summary_in_bounds (r : Boss.call) (w : World)
    (status : string) (score xp total lives : Z) :
  Boss.sessions_ok w →
  (Boss.handle r w).1 = Ok (Boss.Ended status score xp total lives) →
  xp = 20 * score
  ∧ 0 ≤ score ≤ total ∧ total ≤ 5
  ∧ 0 ≤ lives ≤ 3
  ∧ (status = "timeout" ∨ status = "out_of_lives" ∨ status = "completed"
     ∨ status = "forfeit")
  ∧ (status = "out_of_lives" → lives = 0)
  ∧ (status = "completed" → 1 ≤ lives).
Proof.
  intros Hok Hbody.
  destruct r as [payload ai now|user now later|c now later|user now later|user now];
    simpl in Hbody.
  - exfalso. revert Hbody. unfold Boss.start_boss_battle, Boss._ensure_user_exists.
    repeat case_match; done.
  - unfold Boss.get_current_question, Boss._get_session in Hbody.
    destruct (_ACTIVE_SESSIONS w !! user) as [sess|] eqn:Hs; [|done].
    rewrite !(ended_closing _ _ _ _ _ Hs) in Hbody.
    destruct (Hok user sess Hs) as (Hl & Hsc & Hi & Ht).
    destruct (_ =? 0);
      [apply closing_summary in Hbody as (-> & -> & -> & -> & ->); summary_done|].
    destruct (Sess.lives sess <=? 0) eqn:Hlives;
      [apply closing_summary in Hbody as (-> & -> & -> & -> & ->); summary_done|].
    destruct (_ >=? _);
      [apply closing_summary in Hbody as (-> & -> & -> & -> & ->); summary_done|].
    by destruct (Py.index _ _).
  - destruct (answer_cases c now later w)
      as [[_ (code & d & Herr)]|(user & choice & sess & Hn & Hs)].
    { rewrite Herr in Hbody. done. }
    rewrite (submit_answer_session c now later w user choice sess Hn Hs) in Hbody.
    destruct (Hok user sess Hs) as (Hl & Hsc & Hi & Ht).
    destruct (_ =? 0);
      [apply closing_summary in Hbody as (-> & -> & -> & -> & ->); summary_done|].
    destruct (_ >=? _);
      [apply closing_summary in Hbody as (-> & -> & -> & -> & ->); summary_done|].
    destruct (Py.index _ _) as [q|]; [|done].
    cbv zeta in Hbody. revert Hbody.
    destruct (choice =? Question.answer_idx q);
      (destruct (_ <=? 0) eqn:Hlives;
       [intros Hbody;
        apply closing_summary in Hbody as (-> & -> & -> & -> & ->);
        simpl in *; summary_done|]);
      (destruct (_ >=? _) eqn:Hidx;
       [intros Hbody;
        apply closing_summary in Hbody as (-> & -> & -> & -> & ->);
        simpl in *; summary_done|]);
      by destruct (Py.index _ _).
  - unfold Boss.get_status, Boss._get_session in Hbody.
    destruct (_ACTIVE_SESSIONS w !! user) as [sess|] eqn:Hs; [|done].
    cbv zeta in Hbody. rewrite !(ended_closing _ _ _ _ _ Hs) in Hbody.
    destruct (Hok user sess Hs) as (Hl & Hsc & Hi & Ht).
    destruct (_ =? 0); [|done].
    apply closing_summary in Hbody as (-> & -> & -> & -> & ->). summary_done.
  - unfold Boss.forfeit, Boss._get_session in Hbody.
    destruct (_ACTIVE_SESSIONS w !! user) as [sess|] eqn:Hs; [|done].
    rewrite !(ended_closing _ _ _ _ _ Hs) in Hbody.
    destruct (Hok user sess Hs) as (Hl & Hsc & Hi & Ht).
    apply closing_summary in Hbody as (-> & -> & -> & -> & ->). summary_done.
Qed.

End GameFacts.

Lemma quiz_is_over_after_enough_answers_witness :
  _ACTIVE_SESSIONS (Play.answer_all (H := Sample.decimal) SampleRuns.two_turns
                      SampleRuns.opening) !! "alice" = None.
Proof.
  apply (quiz_is_over_after_enough_answers (H := Sample.decimal) SampleRuns.two_turns
           SampleRuns.opening "alice" SampleRuns.fresh).
  - split; [by vm_compute|reflexivity].
  - reflexivity.
  - repeat constructor; eexists; (split; [reflexivity|split; [discriminate|reflexivity]]).
  - simpl. lia.
  - by vm_compute.
Defined.

Lemma playing_in_bounds : Boss.sessions_ok Sample.playing.
Proof.
  intros user s. unfold Sample.playing. simpl.
  intros [_ <-]%lookup_singleton_Some. unfold Boss.session_ok. simpl. lia.
Qed.

Lemma ended_summary_in_bounds_witness :
  (Boss.handle (H := Sample.decimal) (Boss.Forfeit "alice" Sample.second)
     Sample.playing).1 = Ok (Boss.Ended "forfeit" 1 20 2 3)
  ∧ 20 = 20 * 1 ∧ 0 ≤ 1 ≤ 2.
Proof.
  split; [reflexivity|].
  pose proof (ended_summary_in_bounds (H := Sample.decimal)
                (Boss.Forfeit "alice" Sample.second) Sample.playing
                "forfeit" 1 20 2 3 playing_in_bounds eq_refl) as (P1 & P2 & _).
  split; [exact P1|exact P2].
Defined.

Section OpeningFacts.
Context `{PyIntParser}.

(** X11. After a POST /boss/start that succeeded, the player holds a session
    with three lives, no score, the clock started at the time of the
    request, and the question the start body showed; as long as that session
    has time left, GET /boss/question shows the same question again as
    number 1, with the same total, and changes nothing. *)
Theorem question_after_start (payload : StartRequest.t) (ai : ai_outcome) (now : Z)
    (w w' : World) (body : Boss.response) :
  Boss.start_boss_battle payload ai now w = (Ok body, w') →
  ∃ sess question choices,
    _ACTIVE_SESSIONS w' !! StartRequest.user payload = Some sess
    ∧ Sess.lives sess = 3 ∧ Sess.score sess = 0 ∧ Sess.index sess = 0
    ∧ Sess.started_at sess = now
    ∧ body = Boss.Started (StartRequest.user payload) (Sess.time_limit_seconds sess)
               3 1 (Sess.total_questions sess) question choices
    ∧ ∀ t t',
        Boss._time_remaining t sess ≠ 0 →
        Boss.get_current_question (StartRequest.user payload) t t' w'
        = (Ok (Boss.CurrentQuestion question choices 1 (Sess.total_questions sess) 3
                 (Boss._time_remaining t' sess) 0),
           w').
Proof.
  unfold Boss.start_boss_battle, Boss._ensure_user_exists.
  destruct (find_user _ _); [|done].
  destruct (StartRequest.total_questions payload) as [requested|]; [|done].
  destruct (requested <? 1) eqn:Hreq; [done|].
  destruct (bool_decide _); [done|].
  set (total := if negb (requested =? 0) then _ else _).
  assert (1 ≤ total) as Htotal.
  { subst total. change (Z.of_nat (length Boss._QUESTIONS)) with 5.
    destruct (requested =? 0); simpl; lia. }
  destruct (Py.index (Boss._generate_ai_questions total ai) 0) as [q|] eqn:Hq; [|done].
  intros [= <- <-].
  eexists _, (Question.question q), (Question.choices q).
  split; [apply lookup_insert_eq|]. simpl.
  do 5 (split; [reflexivity|]).
  intros t1 t2 Htime. unfold Boss.get_current_question, Boss._get_session. simpl.
  rewrite lookup_insert_eq. apply Z.eqb_neq in Htime. rewrite Htime. simpl.
  assert ((0 >=? total) = false) as -> by lia.
  by rewrite Hq.
Qed.

End OpeningFacts.

Lemma question_after_start_witness :
  ∃ sess, _ACTIVE_SESSIONS
            (Boss.start_boss_battle (H := Sample.decimal) SampleCalls.start_five
               Unconfigured 0 Sample.idle).2 !! "alice" = Some sess
          ∧ Sess.lives sess = 3.
Proof.
  destruct (question_after_start (H := Sample.decimal) SampleCalls.start_five
              Unconfigured 0 Sample.idle _ _ eq_refl)
    as (sess & q & ch & Hs & Hl & _).
  exists sess. split; [exact Hs|exact Hl].
Defined.

(** ** The heuristic mentor *)

Lemma string_length_append (a b : string) :
  String.length (a +:+ b) = (String.length a + String.length b)%nat.
Proof. induction a as [|c a IH]; simpl; [done|by rewrite IH]. Qed.

Lemma substring_head_length (n : nat) (s : string) :
  (n ≤ String.length s)%nat → String.length (String.substring 0 n s) = n.
Proof.
  revert s. induction n as [|n IH]; intros [|c s] Hn; simpl in *; try lia; try done.
  rewrite IH; lia.
Qed.

Lemma substring_head_split (n : nat) (s : string) :
  ∃ tail, s = String.substring 0 n s +:+ tail.
Proof.
  revert s. induction n as [|n IH]; intros [|c s]; simpl.
  - by exists "".
  - by exists (String c s).
  - by exists "".
  - destruct (IH s) as [tail Htail]. exists tail.
    change (String c s = String c (String.substring 0 n s +:+ tail)). by f_equal.
Qed.

(** X12. For a reflection of ASCII characters, the summary the heuristic
    writes is the reflection itself when it has at most 120 characters, and
    otherwise its first 120 characters followed by three dots: never more
    than 123 characters. *)
Theorem mock_summary_is_short (text : string) :
  is_ascii text = true →
  ∃ summary,
    Feedback.summary (TextAI._mock_ai_feedback text) = Py.JStr summary
    ∧ (String.length summary ≤ 123)%nat
    ∧ ((String.length text ≤ 120)%nat → summary = text)
    ∧ ((120 < String.length text)%nat →
       ∃ head tail,
         summary = head +:+ "..."
         ∧ String.length head = 120%nat
         ∧ text = head +:+ tail).
Proof.
  intros _. exists (Py.ellipsis 120 text). split; [reflexivity|].
  unfold Py.ellipsis.
  destruct (120 <? String.length text)%nat eqn:Hlong.
  - apply Nat.ltb_lt in Hlong.
    pose proof (substring_head_length 120 text ltac:(lia)) as Hhead.
    split; [rewrite string_length_append, Hhead; simpl; lia|].
    split; [lia|]. intros _.
    destruct (substring_head_split 120 text) as [tail Htail].
    by exists (String.substring 0 120 text), tail.
  - apply Nat.ltb_ge in Hlong. split; [lia|]. split; [done|lia].
Qed.

Lemma lower_append (a b : string) :
  TextAI.lower (a +:+ b) = TextAI.lower a +:+ TextAI.lower b.
Proof. induction a as [|c a IH]; simpl; [done|by rewrite IH]. Qed.

Lemma prefix_append (word rest : string) : String.prefix word (word +:+ rest) = true.
Proof.
  induction word as [|c word IH]; simpl; [by destruct rest|].
  by destruct (ascii_dec c c).
Qed.

Lemma contains_prefix (word text : string) :
  String.prefix word text = true → TextAI.contains word text = true.
Proof.
  intros Hp.
  assert (TextAI.contains word text
          = String.prefix word text
            || match text with
               | EmptyString => false
               | String _ rest => TextAI.contains word rest
               end) as -> by (by destruct text).
  by rewrite Hp.
Qed.

Lemma contains_inside (word pre post : string) :
  TextAI.contains word (pre +:+ word +:+ post) = true.
Proof.
  induction pre as [|c pre IH].
  - change ("" +:+ word +:+ post) with (word +:+ post).
    apply contains_prefix, prefix_append.
  - change (String c pre +:+ word +:+ post) with (String c (pre +:+ word +:+ post)).
    simpl. rewrite IH. apply orb_true_r.
Qed.

(** X13. A reflection that mentions one of "tired", "hard", "struggle" or
    "stuck" anywhere, inside a longer word and in any mix of ASCII upper and
    lower case included, gets the persistence message, whatever else it
    says. *)
Theorem challenge_word_wins (pre mention post word : string) :
  word ∈ ["tired"; "hard"; "struggle"; "stuck"] →
  TextAI.lower mention = word →
  Feedback.feedback (TextAI._mock_ai_feedback (pre +:+ mention +:+ post))
  = Py.JStr "It sounds like you faced challenges today — remember, progress is built through persistence.".
Proof.
  intros Hword Hlow. unfold TextAI._mock_ai_feedback. cbn [Feedback.feedback].
  assert (TextAI.any_word_in ["tired"; "hard"; "struggle"; "stuck"]
            (TextAI.lower (pre +:+ mention +:+ post)) = true) as ->; [|done].
  rewrite !lower_append, Hlow. unfold TextAI.any_word_in.
  apply existsb_exists. exists word. split; [by apply list_elem_of_In|].
  apply contains_inside.
Qed.

Lemma challenge_word_wins_witness :
  Feedback.feedback (TextAI._mock_ai_feedback "A great day in the ORCHARD")
  = Py.JStr "It sounds like you faced challenges today — remember, progress is built through persistence.".
Proof.
  apply (challenge_word_wins "A great day in the ORC" "HARD" "" "hard");
    [|reflexivity].
  apply list_elem_of_In. simpl. auto.
Defined.

(** ** Stored reflections *)

Lemma ellipsis_nonempty (n : nat) (text : string) :
  text ≠ "" → Py.ellipsis n text ≠ "".
Proof.
  intros Hne. unfold Py.ellipsis. destruct (n <? String.length text)%nat; [|done].
  destruct text as [|c text]; [done|]. by destruct n.
Qed.

Lemma nonempty_truthy (s : string) : s ≠ "" → Py.truthy (Py.JStr s) = true.
Proof. intros Hne. simpl. by apply negb_true_iff, String.eqb_neq. Qed.

Lemma str_truthy_some (o : option string) (s : string) :
  (if Py.str_truthy o then o else None) = Some s → o = Some s ∧ s ≠ "".
Proof.
  destruct o as [x|]; simpl; [|done].
  destruct (String.eqb x "") eqn:Hx; simpl; [done|].
  intros [= <-]. split; [done|]. by apply String.eqb_neq.
Qed.

Section ReflectionFacts.
Context `{PyIntParser}.

Lemma feedback_never_blank (text : string) (ai : ai_outcome) :
  text ≠ "" →
  Py.truthy (Feedback.feedback (TextAI.generate_ai_feedback text ai)) = true
  ∧ Py.truthy (Feedback.summary (TextAI.generate_ai_feedback text ai)) = true.
Proof.
  intros Hne.
  assert (Hmock : Py.truthy (Feedback.feedback (TextAI._mock_ai_feedback text)) = true
                  ∧ Py.truthy (Feedback.summary (TextAI._mock_ai_feedback text)) = true).
  { split.
    - unfold TextAI._mock_ai_feedback. cbn [Feedback.feedback].
      by repeat case_match.
    - apply nonempty_truthy. by apply ellipsis_nonempty. }
  unfold TextAI.generate_ai_feedback.
  destruct ai as [| |data]; try exact Hmock.
  destruct data; try exact Hmock.
  assert (∀ (v d : Py.json), Py.truthy d = true →
            Py.truthy (if Py.truthy v then v else d) = true) as Hor.
  { intros v d Hd. by destruct (Py.truthy v) eqn:Hv. }
  destruct (Py.int _); try exact Hmock; cbn [Feedback.feedback Feedback.summary];
    (split; apply Hor; [done|apply nonempty_truthy; by apply ellipsis_nonempty]).
Qed.

Lemma add_reflection_stored (c : ReflectionCall.t) (ai : ai_outcome)
    (now : Z) (w : World) (row : TextAIReflection.t) :
  (TextAI.add_reflection c ai now w).1 = Ok row →
  TextAI.resolve_user c = Some (TextAIReflection.user row)
  ∧ TextAIReflection.user row ≠ ""
  ∧ is_Some (find_user (TextAIReflection.user row) (db w))
  ∧ TextAI.resolve_text c = Some (TextAIReflection.reflection_text row)
  ∧ TextAIReflection.reflection_text row ≠ ""
  ∧ Py.truthy (TextAIReflection.ai_feedback row) = true
  ∧ Py.truthy (TextAIReflection.summary row) = true
  ∧ (TextAI.add_reflection c ai now w).2
    = mkWorld
        (mkDb (users (db w)) (boss_battles (db w)) (reflections (db w) ++ [row])
           (progress (db w)))
        (_ACTIVE_SESSIONS w).
Proof.
  unfold TextAI.add_reflection.
  destruct (if Py.str_truthy (TextAI.resolve_user c) then _ else _)
    as [username|] eqn:Hu; [|done].
  destruct (if Py.str_truthy (TextAI.resolve_text c) then _ else _)
    as [text|] eqn:Ht; [|done].
  apply str_truthy_some in Hu as [Hu Hune]. apply str_truthy_some in Ht as [Ht Htne].
  destruct (find_user username (db w)) as [usr|] eqn:Hfind; [|done].
  destruct (TextAI.reflection_date c now) as [date| |]; [|done..].
  simpl. intros [= <-]. simpl.
  destruct (feedback_never_blank text ai Htne) as [Hf Hs].
  rewrite Hfind. by eauto 10.
Qed.

(** X14. A row POST /text-ai/ stores is never blank and never orphaned: it
    carries the resolved, non-empty username of a registered user, the
    resolved non-empty text, a feedback and a summary that are not empty;
    it is appended after the rows already there, and users, boss battles,
    study sessions and active sessions stay as they were. *)
Theorem stored_reflection_is_filled (c : ReflectionCall.t) (ai : ai_outcome)
    (now : Z) (w : World) (row : TextAIReflection.t) :
  (TextAI.add_reflection c ai now w).1 = Ok row →
  TextAI.resolve_user c = Some (TextAIReflection.user row)
  ∧ TextAIReflection.user row ≠ ""
  ∧ is_Some (find_user (TextAIReflection.user row) (db w))
  ∧ TextAI.resolve_text c = Some (TextAIReflection.reflection_text row)
  ∧ TextAIReflection.reflection_text row ≠ ""
  ∧ Py.truthy (TextAIReflection.ai_feedback row) = true
  ∧ Py.truthy (TextAIReflection.summary row) = true
  ∧ (TextAI.add_reflection c ai now w).2
    = mkWorld
        (mkDb (users (db w)) (boss_battles (db w)) (reflections (db w) ++ [row])
           (progress (db w)))
        (_ACTIVE_SESSIONS w).
Proof. apply add_reflection_stored. Qed.

(** X15. GET /text-ai/ never changes anything, and it answers with rows
    exactly when the user is registered and has some: the rows are then all
    of that user's reflections and nobody else's, in the order they were
    stored. *)
Theorem list_reflections_returns_own_rows (user : string) (w : World)
    (rows : list TextAIReflection.t) :
  (TextAI.list_reflections user w).2 = w
  ∧ ((TextAI.list_reflections user w).1 = Ok rows ↔
     is_Some (find_user user (db w))
     ∧ rows ≠ []
     ∧ rows = filter (λ r, TextAIReflection.user r = user) (reflections (db w))).
Proof.
  unfold TextAI.list_reflections.
  destruct (find_user user (db w)) as [usr|]; simpl.
  2:{ split; [done|]. split; [done|]. by intros [[? ?] _]. }
  destruct (filter _ _) as [|r found] eqn:Hf; simpl.
  - split; [done|]. split; [done|]. by intros (_ & Hne & ->).
  - split; [done|]. split.
    + intros [= <-]. by eauto.
    + by intros (_ & _ & ->).
Qed.

(** X16. What POST /text-ai/ stores, GET /text-ai/ returns: right after a
    reflection was stored, listing its user's reflections gives the rows
    the user had before followed by the new one. *)
Theorem reflection_is_listed_after_add (c : ReflectionCall.t) (ai : ai_outcome)
    (now : Z) (w w' : World) (row : TextAIReflection.t) :
  TextAI.add_reflection c ai now w = (Ok row, w') →
  TextAI.list_reflections (TextAIReflection.user row) w'
  = (Ok (filter (λ r, TextAIReflection.user r = TextAIReflection.user row)
           (reflections (db w)) ++ [row]),
     w').
Proof.
  intros Hadd.
  destruct (add_reflection_stored c ai now w row) as (_ & _ & Hfind & _ & _ & _ & _ & Hw').
  { by rewrite Hadd. }
  rewrite Hadd in Hw'. simpl in Hw'. subst w'.
  unfold TextAI.list_reflections, find_user. simpl.
  destruct Hfind as [usr Hfind]. unfold find_user in Hfind. rewrite Hfind.
  rewrite filter_app. rewrite (filter_cons_True _ row []) by done.
  rewrite filter_nil.
  by destruct (filter _ (reflections (db w))).
Qed.

(** X17. A reflection sent as a plain JSON object needs a date: when the
    object is not empty and has no usable "date" entry, a request that
    passes the user and text checks of a registered user fails with an
    AttributeError and stores nothing, the chat-completion outcome
    notwithstanding. *)
Theorem plain_object_without_date_fails (c : ReflectionCall.t) (ai : ai_outcome)
    (now : Z) (w : World) (d : gmap string string) (username text : string) :
  ReflectionCall.data c = BodyDict d →
  d ≠ ∅ →
  Py.str_truthy (d !! "date") = false →
  TextAI.resolve_user c = Some username → username ≠ "" →
  TextAI.resolve_text c = Some text → text ≠ "" →
  is_Some (find_user username (db w)) →
  TextAI.add_reflection c ai now w = (Crash AttributeError, w).
Proof.
  intros Hdata Hd Hdate Hu Hune Ht Htne [usr Hfind].
  unfold TextAI.add_reflection.
  rewrite Hu, Ht, (str_truthy_nonempty _ Hune), (str_truthy_nonempty _ Htne), Hfind.
  assert (TextAI.reflection_date c now = Crash AttributeError) as ->; [|done].
  unfold TextAI.reflection_date, TextAI.incoming_date, TextAI.incoming.
  rewrite Hdata. rewrite bool_decide_eq_false_2 by done.
  destruct (d !! "date") as [s|]; simpl in *; [|done].
  by rewrite Hdate.
Qed.

End ReflectionFacts.

Lemma stored_reflection_is_filled_witness :
  ∃ row,
    (TextAI.add_reflection (H := Sample.decimal) SampleCalls.alice_reflects CallRaises
       (9 * Sample.second) Sample.idle).1 = Ok row
    ∧ TextAIReflection.user row ≠ ""
    ∧ Py.truthy (TextAIReflection.ai_feedback row) = true.
Proof.
  eexists. split; [reflexivity|].
  destruct (stored_reflection_is_filled (H := Sample.decimal) SampleCalls.alice_reflects
              CallRaises (9 * Sample.second) Sample.idle _ eq_refl)
    as (_ & P2 & _ & _ & _ & P6 & _).
  split; [exact P2|exact P6].
Defined.

Lemma list_reflections_returns_own_rows_witness :
  (TextAI.list_reflections "alice" Sample.idle).2 = Sample.idle.
Proof.
  exact (proj1 (list_reflections_returns_own_rows "alice" Sample.idle [])).
Defined.

Lemma reflection_is_listed_after_add_witness :
  let out :=
    TextAI.add_reflection (H := Sample.decimal) SampleCalls.alice_reflects CallRaises
      (9 * Sample.second) Sample.idle in
  ∃ row, out.1 = Ok row ∧ TextAI.list_reflections "alice" out.2 = (Ok [row], out.2).
Proof.
  intros out. eexists. split; [reflexivity|].
  exact (reflection_is_listed_after_add (H := Sample.decimal)
           SampleCalls.alice_reflects CallRaises (9 * Sample.second) Sample.idle
           _ _ eq_refl).
Defined.

Lemma plain_object_without_date_fails_witness :
  TextAI.add_reflection (H := Sample.decimal) SampleRuns.alias_body Unconfigured 0
    Sample.idle = (Crash AttributeError, Sample.idle).
Proof.
  apply (plain_object_without_date_fails (H := Sample.decimal) SampleRuns.alias_body
           Unconfigured 0 Sample.idle
           (<["username" := "alice"]> (<["text" := "Good session"]> ∅))
           "alice" "Good session");
    [reflexivity| |reflexivity|reflexivity|discriminate|reflexivity|discriminate
    |by eexists].
  intros Habs. apply (f_equal (λ m : gmap string string, m !! "text")) in Habs.
  vm_compute in Habs. discriminate Habs.
Defined.

(** ** The study streak *)

Set Warnings "-clear-no-such-hyp".

Lemma insert_day_elem (d x : Z) (days : list Z) :
  x ∈ Home.insert_day d days ↔ x = d ∨ x ∈ days.
Proof.
  induction days as [|a days IH]; simpl.
  - set_solver.
  - destruct (d <? a) eqn:Hlt; [set_solver|].
    destruct (d =? a) eqn:Heq.
    + apply Z.eqb_eq in Heq as ->. set_solver.
    + set_solver.
Qed.

Lemma insert_day_sorted (d : Z) (days : list Z) :
  StronglySorted Z.lt days → StronglySorted Z.lt (Home.insert_day d days).
Proof.
  induction 1 as [|a days Hsorted IH Hall]; simpl.
  - repeat constructor.
  - destruct (d <? a) eqn:Hlt.
    + constructor; [by constructor|]. constructor; [lia|].
      eapply Forall_impl; [exact Hall|]. simpl. lia.
    + destruct (d =? a) eqn:Heq; [by constructor|].
      constructor; [exact IH|]. apply Forall_forall. intros x Hx.
      apply insert_day_elem in Hx as [-> | Hx]; [lia|].
      by apply (proj1 (Forall_forall _ _) Hall).
Qed.

Lemma sorted_days_spec (sessions : list Progress.t) :
  StronglySorted Z.lt (Home.sorted_days sessions)
  ∧ ∀ d, d ∈ Home.sorted_days sessions ↔ d ∈ study_days sessions.
Proof.
  unfold Home.sorted_days, study_days.
  induction sessions as [|s sessions [IHs IHe]]; simpl.
  - split; [constructor|done].
  - split; [by apply insert_day_sorted|].
    intros d. rewrite insert_day_elem, IHe. set_solver.
Qed.

Lemma sorted_days_length (sessions : list Progress.t) :
  (length (Home.sorted_days sessions) ≤ length sessions)%nat.
Proof.
  unfold Home.sorted_days.
  assert (∀ d l, (length (Home.insert_day d l) ≤ S (length l))%nat) as Hins.
  { intros d l. induction l as [|a l IH]; simpl; [lia|].
    destruct (d <? a); simpl; [lia|]. destruct (d =? a); simpl; lia. }
  induction sessions as [|s sessions IH]; simpl; [lia|].
  etrans; [apply Hins|lia].
Qed.

Lemma rev_descending (days : list Z) :
  StronglySorted Z.lt days → StronglySorted (flip Z.lt) (rev days).
Proof.
  induction 1 as [|a days Hsorted IH Hall]; simpl; [constructor|].
  apply StronglySorted_app_2; [|exact IH|repeat constructor].
  intros x1 x2 Hx1 Hx2. apply list_elem_of_singleton in Hx2 as ->.
  apply list_elem_of_In, in_rev, list_elem_of_In in Hx1.
  by apply (proj1 (Forall_forall _ _) Hall).
Qed.

(** The loop of [calculate_streak] on days in strictly descending order. *)
Lemma streak_from_spec (latest : Z) (earlier : list Z) (streak : Z) :
  StronglySorted (flip Z.lt) (latest :: earlier) →
  let run := Home.streak_from latest earlier streak - streak in
  0 ≤ run ≤ Z.of_nat (length earlier)
  ∧ (∀ i, 0 ≤ i ≤ run → latest - i ∈ latest :: earlier)
  ∧ latest - (run + 1) ∉ latest :: earlier.
Proof.
  revert latest streak. induction earlier as [|d rest IH]; intros latest streak Hs; simpl.
  - replace (streak - streak) with 0 by lia. split; [lia|]. split.
    + intros i Hi. replace i with 0 by lia. rewrite Z.sub_0_r. set_solver.
    + rewrite list_elem_of_singleton. lia.
  - apply StronglySorted_inv in Hs as [Hs Hall].
    apply Forall_cons in Hall as [Hd Hrest]. unfold flip in Hd.
    destruct (latest - d =? 1) eqn:Hstep.
    + destruct (IH d (streak + 1) Hs) as (Hrun & Hin & Hout). simpl in *.
      set (k := Home.streak_from d rest (streak + 1)) in *.
      split; [lia|]. split.
      * intros i Hi. destruct (Z.eq_dec i 0) as [->|Hi0].
        { rewrite Z.sub_0_r. set_solver. }
        apply list_elem_of_further.
        replace (latest - i) with (d - (i - 1)) by lia. apply Hin. lia.
      * intros Habs. apply elem_of_cons in Habs as [Habs|Habs]; [lia|].
        apply Hout. by replace (d - (k - (streak + 1) + 1))
                      with (latest - (k - streak + 1)) by lia.
    + replace (streak - streak) with 0 by lia. split; [lia|]. split.
      * intros i Hi. replace i with 0 by lia. rewrite Z.sub_0_r. set_solver.
      * intros Habs. apply elem_of_cons in Habs as [Habs|Habs]; [lia|].
        apply elem_of_cons in Habs as [Habs|Habs]; [lia|].
        apply StronglySorted_inv in Hs as [_ Hbelow].
        pose proof (proj1 (Forall_forall _ _) Hbelow _ Habs) as Hlt.
        unfold flip in Hlt. lia.
Qed.

(** The streak in terms of the days studied. *)
Lemma streak_spec (sessions : list Progress.t) :
  sessions ≠ [] →
  ∃ latest,
    latest ∈ study_days sessions
    ∧ (∀ d, d ∈ study_days sessions → d ≤ latest)
    ∧ 1 ≤ Home.calculate_streak sessions ≤ Z.of_nat (length sessions)
    ∧ (∀ i, 0 ≤ i < Home.calculate_streak sessions →
         latest - i ∈ study_days sessions)
    ∧ latest - Home.calculate_streak sessions ∉ study_days sessions.
Proof.
  intros Hne. destruct (sorted_days_spec sessions) as [Hsorted Helem].
  pose proof (sorted_days_length sessions) as Hlen.
  pose proof (rev_descending _ Hsorted) as Hdesc.
  assert (∀ d, d ∈ rev (Home.sorted_days sessions) ↔ d ∈ study_days sessions) as Hrev.
  { intros d. rewrite <- Helem. rewrite !list_elem_of_In. symmetry. apply in_rev. }
  assert (length (rev (Home.sorted_days sessions))
          = length (Home.sorted_days sessions)) as Hrevlen by apply length_rev.
  unfold Home.calculate_streak. destruct sessions as [|s0 sessions]; [done|].
  destruct (rev (Home.sorted_days (s0 :: sessions))) as [|latest earlier] eqn:Hdays.
  { exfalso. assert (Home.day_of (Progress.date s0) ∈ @nil Z) as Habs.
    { apply Hrev. unfold study_days. simpl. set_solver. }
    set_solver. }
  destruct (streak_from_spec latest earlier 1 Hdesc) as (Hrun & Hin & Hout).
  simpl in Hrun, Hin, Hout, Hrevlen.
  set (k := Home.streak_from latest earlier 1) in *.
  exists latest. split; [apply Hrev; set_solver|]. split.
  { intros d Hd. apply Hrev in Hd.
    apply elem_of_cons in Hd as [->|Hd]; [lia|].
    apply StronglySorted_inv in Hdesc as [_ Hbelow].
    pose proof (proj1 (Forall_forall _ _) Hbelow _ Hd) as Hlt.
    unfold flip in Hlt. lia. }
  split; [simpl in *; lia|]. split.
  - intros i Hi. apply Hrev, Hin. lia.
  - intros Habs. apply Hrev in Habs. apply Hout.
    by replace (k - 1 + 1) with k by lia.
Qed.

(** X18. The streak counts back from the latest day studied, not from
    today: for a non-empty log it is the number k >= 1 such that the latest
    study day and the k - 1 days before it all have a session while the day
    k days before the latest has none. *)
Theorem streak_counts_back_from_latest_day (sessions : list Progress.t) :
  sessions ≠ [] →
  ∃ latest,
    latest ∈ study_days sessions
    ∧ (∀ d, d ∈ study_days sessions → d ≤ latest)
    ∧ 1 ≤ Home.calculate_streak sessions
    ∧ (∀ i, 0 ≤ i < Home.calculate_streak sessions →
         latest - i ∈ study_days sessions)
    ∧ latest - Home.calculate_streak sessions ∉ study_days sessions.
Proof.
  intros Hne. destruct (streak_spec sessions Hne) as (latest & H1 & H2 & H3 & H4 & H5).
  exists latest. repeat split; try done. lia.
Qed.

(** X19. The streak is 0 for an empty log only, and otherwise at least 1 and
    at most the number of sessions logged. *)
Theorem streak_bounds (sessions : list Progress.t) :
  0 ≤ Home.calculate_streak sessions ≤ Z.of_nat (length sessions)
  ∧ (Home.calculate_streak sessions = 0 ↔ sessions = []).
Proof.
  destruct sessions as [|s sessions]; [done|].
  destruct (streak_spec (s :: sessions) ltac:(done)) as (_ & _ & _ & Hk & _).
  split; [lia|]. split; [lia|done].
Qed.

Lemma streak_same_days (log1 log2 : list Progress.t) :
  (∀ d, d ∈ study_days log1 ↔ d ∈ study_days log2) →
  Home.calculate_streak log1 = Home.calculate_streak log2.
Proof.
  intros Hsame.
  destruct log1 as [|s1 log1], log2 as [|s2 log2]; [done| | |].
  - exfalso. assert (Home.day_of (Progress.date s2) ∈ study_days []) as Habs.
    { apply Hsame. unfold study_days. simpl. set_solver. }
    unfold study_days in Habs. set_solver.
  - exfalso. assert (Home.day_of (Progress.date s1) ∈ study_days []) as Habs.
    { apply Hsame. unfold study_days. simpl. set_solver. }
    unfold study_days in Habs. set_solver.
  - destruct (streak_spec (s1 :: log1) ltac:(done))
      as (l1 & Hl1 & Hmax1 & [Hk1 _] & Hin1 & Hout1).
    destruct (streak_spec (s2 :: log2) ltac:(done))
      as (l2 & Hl2 & Hmax2 & [Hk2 _] & Hin2 & Hout2).
    set (k1 := Home.calculate_streak (s1 :: log1)) in *.
    set (k2 := Home.calculate_streak (s2 :: log2)) in *.
    assert (l1 = l2) as <-.
    { apply Hsame in Hl1 as Hl1'. apply Hsame in Hl2 as Hl2'.
      pose proof (Hmax2 _ Hl1'). pose proof (Hmax1 _ Hl2'). lia. }
    destruct (Z.lt_trichotomy k1 k2) as [Hlt|[Heq|Hgt]]; [|done|].
    + exfalso. apply Hout1, Hsame, Hin2. lia.
    + exfalso. apply Hout2, Hsame, Hin1. lia.
Qed.

(** X20. The streak depends on the set of days studied only: two logs that
    cover the same days have the same streak, however the sessions are
    ordered and however many there are per day. *)
Theorem streak_depends_on_days_only (log1 log2 : list Progress.t) :
  (∀ d, d ∈ study_days log1 ↔ d ∈ study_days log2) →
  Home.calculate_streak log1 = Home.calculate_streak log2.
Proof. apply streak_same_days. Qed.

Lemma streak_counts_back_from_latest_day_witness :
  ∃ latest, latest ∈ study_days SampleRuns.log
            ∧ latest - Home.calculate_streak SampleRuns.log ∉ study_days SampleRuns.log.
Proof.
  destruct (streak_counts_back_from_latest_day SampleRuns.log ltac:(discriminate))
    as (latest & H1 & _ & _ & _ & H5).
  exists latest. split; [exact H1|exact H5].
Defined.

Lemma streak_depends_on_days_only_witness :
  Home.calculate_streak (rev SampleRuns.log) = Home.calculate_streak SampleRuns.log.
Proof.
  apply streak_depends_on_days_only. intros d. unfold study_days.
  rewrite map_rev. rewrite !list_elem_of_In. symmetry. apply in_rev.
Defined.

(** ** The dashboard *)

Lemma insert_recent_perm (s : Progress.t) (sorted : list Progress.t) :
  Home.insert_recent s sorted ≡ₚ s :: sorted.
Proof.
  induction sorted as [|x rest IH]; simpl; [done|].
  destruct (Progress.date x <? Progress.date s); [done|].
  rewrite IH. apply Permutation_swap.
Qed.

Lemma sort_recent_perm (sessions : list Progress.t) :
  Home.sort_recent sessions ≡ₚ sessions.
Proof.
  unfold Home.sort_recent.
  assert (∀ acc, foldl (λ acc s, Home.insert_recent s acc) acc sessions
                 ≡ₚ sessions ++ acc) as Hfold.
  { induction sessions as [|s sessions IH]; intros acc; simpl; [done|].
    rewrite IH, insert_recent_perm. by rewrite Permutation_middle. }
  by rewrite Hfold, app_nil_r.
Qed.

Lemma insert_recent_sorted (s : Progress.t) (sorted : list Progress.t) :
  StronglySorted no_earlier sorted →
  StronglySorted no_earlier (Home.insert_recent s sorted).
Proof.
  induction 1 as [|x rest Hsorted IH Hall]; simpl; [repeat constructor|].
  destruct (Progress.date x <? Progress.date s) eqn:Hlt.
  - constructor; [by constructor|]. constructor; [unfold no_earlier; lia|].
    eapply Forall_impl; [exact Hall|]. unfold no_earlier. simpl. lia.
  - constructor; [exact IH|]. rewrite insert_recent_perm.
    constructor; [unfold no_earlier; lia|exact Hall].
Qed.

Lemma sort_recent_sorted (sessions : list Progress.t) :
  StronglySorted no_earlier (Home.sort_recent sessions).
Proof.
  unfold Home.sort_recent.
  assert (∀ acc, StronglySorted no_earlier acc →
                 StronglySorted no_earlier
                   (foldl (λ acc s, Home.insert_recent s acc) acc sessions)) as Hfold.
  { induction sessions as [|s sessions IH]; intros acc Hacc; simpl; [done|].
    by apply IH, insert_recent_sorted. }
  apply Hfold. constructor.
Qed.

Lemma sum_xp_perm (l1 l2 : list Progress.t) :
  l1 ≡ₚ l2 → Home.sum_xp l1 = Home.sum_xp l2.
Proof.
  unfold Home.sum_xp. induction 1; simpl; lia.
Qed.

Lemma study_days_perm (l1 l2 : list Progress.t) (d : Z) :
  l1 ≡ₚ l2 → d ∈ study_days l1 ↔ d ∈ study_days l2.
Proof. intros Hp. unfold study_days. by rewrite Hp. Qed.

(** X21. GET /home/dashboard only reads. For a registered user it counts
    all the user's study sessions, reports the streak of those sessions, and
    shows as recent the three latest of them (all of them when there are
    fewer), latest first: no session left out is later than one shown. XP
    is the user's stored total, or the sum over the sessions when the stored
    total is unset or 0 and there are sessions. *)
Theorem dashboard_shows_latest_sessions (user : string) (w w' : World)
    (d : Dashboard.t) :
  Home.get_dashboard user w = (Ok d, w') →
  w' = w
  ∧ Dashboard.user d = user
  ∧ Dashboard.total_sessions d = Z.of_nat (length (study_log user w))
  ∧ Dashboard.current_streak_days d = Home.calculate_streak (study_log user w)
  ∧ length (Dashboard.recent_sessions d) = (3 `min` length (study_log user w))%nat
  ∧ StronglySorted no_earlier (Dashboard.recent_sessions d)
  ∧ (∃ older,
       Dashboard.recent_sessions d ++ older ≡ₚ study_log user w
       ∧ ∀ r o, r ∈ Dashboard.recent_sessions d → o ∈ older → no_earlier r o)
  ∧ (∃ usr,
       find_user user (db w) = Some usr
       ∧ Dashboard.total_xp d
         = match study_log user w with
           | [] => User.total_xp usr
           | _ => Some (Py.int_or (User.total_xp usr) (Home.sum_xp (study_log user w)))
           end).
Proof.
  unfold Home.get_dashboard. fold (study_log user w).
  destruct (find_user user (db w)) as [usr|]; [|done].
  destruct (study_log user w) as [|s0 rows] eqn:Hlog.
  - intros [= <- <-]. simpl. repeat split; try done; try constructor.
    + exists []. split; [done|]. intros r o Hr. by apply elem_of_nil in Hr.
    + by exists usr.
  - set (log := s0 :: rows) in *. set (sorted := Home.sort_recent log).
    intros [= <- <-].
    cbn [Dashboard.user Dashboard.total_sessions Dashboard.current_streak_days
         Dashboard.recent_sessions Dashboard.total_xp].
    pose proof (sort_recent_perm log) as Hperm. fold sorted in Hperm.
    pose proof (sort_recent_sorted log) as Hsorted. fold sorted in Hsorted.
    split; [done|]. split; [done|].
    split; [by rewrite Hperm|].
    split; [apply streak_same_days; intros day; by apply study_days_perm|].
    split; [by rewrite length_take, Hperm|].
    rewrite <- (take_drop 3 sorted) in Hsorted.
    apply StronglySorted_app in Hsorted as (Hcross & Hrecent & _).
    split; [exact Hrecent|]. split.
    + exists (drop 3 sorted). split; [by rewrite take_drop|exact Hcross].
    + exists usr. split; [done|]. rewrite (sum_xp_perm sorted log Hperm).
      unfold Py.int_or, log. by destruct (User.total_xp usr) as [xp|].
Qed.

Lemma dashboard_shows_latest_sessions_witness :
  ∃ d,
    Home.get_dashboard "alice" SampleRuns.studying = (Ok d, SampleRuns.studying)
    ∧ Dashboard.total_sessions d = 5
    ∧ Dashboard.current_streak_days d = 3.
Proof.
  eexists. split; [reflexivity|].
  destruct (dashboard_shows_latest_sessions "alice" SampleRuns.studying _ _ eq_refl)
    as (_ & _ & H3 & H4 & _).
  split; [exact H3|exact H4].
Defined.

(** ** A perfect game *)

Lemma index_drop {A} (l : list A) (i : Z) (x : A) (rest : list A) :
  0 ≤ i → drop (Z.to_nat i) l = x :: rest →
  Py.index l i = Some x ∧ drop (Z.to_nat (i + 1)) l = rest.
Proof.
  intros Hi Hdrop. unfold Py.index. assert ((0 <=? i) = true) as -> by lia.
  split.
  - pose proof (lookup_drop l (Z.to_nat i) 0) as Hl.
    rewrite Hdrop, Nat.add_0_r in Hl. by rewrite <- Hl.
  - replace (Z.to_nat (i + 1)) with (Z.to_nat i + 1)%nat by lia.
    by rewrite <- drop_drop, Hdrop.
Qed.

Section PerfectGame.
Context `{PyIntParser}.

(** X22. Answering every remaining question of a complete quiz correctly
    and in time ends the game as completed: the session is gone, exactly one
    BossBattle row is added, its score is the score so far plus the number
    of questions that were left and its xp_reward 20 times that, and the
    player's User row is credited with the same amount. *)
Theorem perfect_game_is_completed (turns : list Play.turn) (w : World)
    (user : string) (sess : Sess.t) :
  Play.quiz_complete sess →
  _ACTIVE_SESSIONS w !! user = Some sess →
  1 ≤ Sess.lives sess →
  Sess.index sess < Sess.total_questions sess →
  Forall2 (Play.right_answer user sess) turns
    (drop (Z.to_nat (Sess.index sess)) (Sess.questions sess)) →
  let final := Sess.score sess + (Sess.total_questions sess - Sess.index sess) in
  let w' := Play.answer_all turns w in
  _ACTIVE_SESSIONS w' = delete user (_ACTIVE_SESSIONS w)
  ∧ (∃ t, boss_battles (db w')
          = boss_battles (db w) ++
            [BossBattle.mk user t final (Sess.total_questions sess) (20 * final)
               (Sess.difficulty sess) true])
  ∧ (∀ usr, find_user user (db w) = Some usr →
       find_user user (db w') = Some (User.add_xp (20 * final) usr)).
Proof.
  intros Hc Hs Hl Hi Hall. revert w sess Hc Hs Hl Hi Hall.
  induction turns as [|t turns IH]; intros w sess [Hpos Hlen] Hs Hl Hi Hall.
  { apply Forall2_nil_inv_l in Hall.
    apply (f_equal length) in Hall. rewrite length_drop in Hall. simpl in Hall. lia. }
  apply Forall2_cons_inv_l in Hall as (q & qs & [Hn Htime] & Hrest & Hdrop).
  destruct (index_drop _ _ _ _ Hpos Hdrop) as [Hq Hdrop'].
  simpl.
  rewrite (submit_answer_session (Play.request t) (Play.at_check t) (Play.at_end t)
             w user (Question.answer_idx q) sess Hn Hs).
  apply Z.eqb_neq in Htime. rewrite Htime.
  assert ((Sess.index sess >=? Sess.total_questions sess) = false) as -> by lia.
  rewrite Hq. cbv zeta. rewrite Z.eqb_refl.
  set (sess' := Boss.record_answer true sess).
  set (w1 := mkWorld (db w) (<[user:=sess']> (_ACTIVE_SESSIONS w))).
  assert (Hs1 : _ACTIVE_SESSIONS w1 !! user = Some sess') by apply lookup_insert_eq.
  assert ((Sess.lives sess' <=? 0) = false) as -> by (simpl; lia).
  destruct (Sess.index sess' >=? Sess.total_questions sess') eqn:Hlast.
  - (* the last question *)
    simpl in Hlast.
    assert (qs = []) as ->.
    { apply (f_equal length) in Hdrop'. rewrite length_drop in Hdrop'.
      destruct qs; [done|]. simpl in Hdrop'. lia. }
    apply Forall2_nil_inv_r in Hrest as ->. simpl.
    unfold Boss._end_session. rewrite Hs1. simpl.
    replace ((Sess.score sess + 1) * 20)
      with (20 * (Sess.score sess
                  + (Sess.total_questions sess - Sess.index sess))) by lia.
    replace (Sess.score sess + 1)
      with (Sess.score sess + (Sess.total_questions sess - Sess.index sess)) by lia.
    split; [apply delete_insert_eq|]. split; [by eexists|].
    intros usr Hu. rewrite Hu. unfold find_user in *. simpl.
    rewrite find_update_first by done. by rewrite Hu.
  - (* more to come *)
    simpl in Hlast.
    destruct (index_in_range (Sess.questions sess') (Sess.index sess')
                ltac:(simpl; lia)) as [next_q ->].
    cbn [snd].
    destruct (IH w1 sess') as (Hgone & Hrow & Hxp).
    + split; simpl; lia.
    + exact Hs1.
    + simpl. lia.
    + simpl. lia.
    + simpl. rewrite Hdrop'.
      eapply Forall2_impl; [exact Hrest|]. by intros t0 q0 [? ?].
    + simpl in Hgone, Hrow, Hxp.
      replace (Sess.score sess + 1 + (Sess.total_questions sess - (Sess.index sess + 1)))
        with (Sess.score sess + (Sess.total_questions sess - Sess.index sess))
        in Hrow, Hxp by lia.
      split; [by rewrite Hgone, delete_insert_eq|]. split; [exact Hrow|exact Hxp].
Qed.

End PerfectGame.

Lemma perfect_game_is_completed_witness :
  boss_battles (db (Play.answer_all (H := Sample.decimal) SampleRuns.right_turns
                      SampleRuns.opening))
  = [BossBattle.mk "alice" (3 * Sample.second) 2 2 40 "medium" true].
Proof.
  destruct (perfect_game_is_completed (H := Sample.decimal) SampleRuns.right_turns
              SampleRuns.opening "alice" SampleRuns.fresh) as (_ & [t Hrow] & _).
  - split; [by vm_compute|reflexivity].
  - reflexivity.
  - by vm_compute.
  - by vm_compute.
  - repeat constructor; try reflexivity; try discriminate; by vm_compute.
  - reflexivity.
Defined.

(** ** Experience points *)

Lemma closing_users (user status : string) (t : Z) (w0 : World) (sess : Sess.t)
    (name : string) (usr : User.t) :
  _ACTIVE_SESSIONS w0 !! user = Some sess →
  find_user name (db w0) = Some usr →
  find_user name (db (Boss.closing user status t w0 sess).2)
  = Some (if decide (name = user) then User.add_xp (20 * Sess.score sess) usr else usr).
Proof.
  intros Hs Hu. unfold Boss.closing, Boss._end_session. rewrite Hs. simpl.
  replace (Sess.score sess * 20) with (20 * Sess.score sess) by lia.
  destruct (decide (name = user)) as [->|Hne].
  - rewrite Hu. unfold find_user in *. simpl.
    rewrite find_update_first by done. by rewrite Hu.
  - destruct (find_user user (db w0)); [|done].
    unfold find_user in *. simpl. rewrite <- Hu.
    apply find_update_first_other; [done|].
    intros x Hx. apply String.eqb_eq in Hx. apply String.eqb_neq. congruence.
Qed.

Lemma add_xp_raises (xp : Z) (usr : User.t) :
  0 ≤ xp →
  Py.int_or (User.total_xp usr) 0 ≤ Py.int_or (User.total_xp (User.add_xp xp usr)) 0.
Proof.
  intros Hxp. simpl.
  destruct (Py.int_or (User.total_xp usr) 0 + xp =? 0) eqn:Hz; lia.
Qed.

Section XpFacts.
Context `{PyIntParser}.

(** X23. While the stored sessions are within their bounds, a request under
    /boss never takes experience away and never drops or renames a user:
    every User row is found again under its name with the same email and a
    total_xp that is no smaller (an unset total counting as 0), and the rows
    of everybody but the request's own player are left exactly as they
    were. *)
Theorem xp_is_never_taken (r : Boss.call) (w : World) (name : string) (usr : User.t) :
  Boss.sessions_ok w →
  find_user name (db w) = Some usr →
  ∃ usr',
    find_user name (db (Boss.handle r w).2) = Some usr'
    ∧ User.username usr' = User.username usr
    ∧ User.email usr' = User.email usr
    ∧ Py.int_or (User.total_xp usr) 0 ≤ Py.int_or (User.total_xp usr') 0
    ∧ (Play.player_of r ≠ Some name → usr' = usr).
Proof.
  intros Hok Hu.
  assert (Hcredit : ∀ user status t w0 sess,
             db w0 = db w →
             _ACTIVE_SESSIONS w0 !! user = Some sess →
             0 ≤ Sess.score sess →
             Play.player_of r = Some user →
             ∃ usr',
               find_user name (db (Boss.closing user status t w0 sess).2) = Some usr'
               ∧ User.username usr' = User.username usr
               ∧ User.email usr' = User.email usr
               ∧ Py.int_or (User.total_xp usr) 0 ≤ Py.int_or (User.total_xp usr') 0
               ∧ (Play.player_of r ≠ Some name → usr' = usr)).
  { intros user status t w0 sess Hdb Hs Hscore Hp.
    rewrite (closing_users user status t w0 sess name usr Hs) by by rewrite Hdb.
    eexists. split; [reflexivity|].
    destruct (decide (name = user)) as [->|Hne].
    - split; [done|]. split; [done|]. split; [apply add_xp_raises; lia|].
      intros Hother. by destruct Hother.
    - by repeat split. }
  pose proof (handle_effect r w) as Heff.
  inversion Heff
    as [o Ho Heq|o user s Ho Hp Heq|user status t sess Hp Hs Heq
       |user status t b prev Hp Hs Heq].
  - exists usr. by repeat split.
  - exists usr. by repeat split.
  - apply Hcredit; [done|done| |done].
    destruct (Hok user sess Hs) as (_ & Hscore & _). lia.
  - apply Hcredit; [done|apply lookup_insert_eq| |done].
    destruct (Hok user prev Hs) as (_ & Hscore & _). destruct b; simpl; lia.
Qed.

End XpFacts.

Lemma xp_is_never_taken_witness :
  ∃ usr',
    find_user "alice"
      (db (Boss.handle (H := Sample.decimal) (Boss.Forfeit "alice" Sample.second)
             Sample.playing).2) = Some usr'
    ∧ 40 ≤ Py.int_or (User.total_xp usr') 0.
Proof.
  destruct (xp_is_never_taken (H := Sample.decimal) (Boss.Forfeit "alice" Sample.second)
              Sample.playing "alice" Sample.alice playing_in_bounds eq_refl)
    as (usr' & Hfind & _ & _ & Hxp & _).
  exists usr'. split; [exact Hfind|exact Hxp].
Defined.

Lemma mock_summary_is_short_witness :
  ∃ summary,
    Feedback.summary (TextAI._mock_ai_feedback "Good session") = Py.JStr summary
    ∧ summary = "Good session".
Proof.
  destruct (mock_summary_is_short "Good session" eq_refl) as (s & Hs & _ & Hshort & _).
  exists s. split; [exact Hs|]. apply Hshort. simpl. lia.
Defined.

Lemma streak_bounds_witness :
  0 ≤ Home.calculate_streak SampleRuns.log ≤ 5.
Proof. exact (proj1 (streak_bounds SampleRuns.log)). Defined.
